(** * tap-hubspot: the incremental extraction engine

    A shallow embedding of [tap_hubspot/client.py]: the three stream classes
    [HubspotStream], [DynamicHubspotStream] and
    [DynamicIncrementalHubspotStream], with the Python values they
    manipulate, and the properties of their pagination and post-processing
    methods. *)

From Stdlib Require Import ZArith List String Ascii Bool Lia.
From Stdlib Require Import DecimalString.
Import ListNotations.

Local Open Scope Z_scope.
Local Open Scope string_scope.

(** ** Python values *)

(** The values that flow through the client: JSON documents decoded by
    [response.json()], page tokens, query parameters and request bodies.
    A [dict] keeps its insertion order, as Python's does; keys are strings.
    JSON numbers are integers here (the API's offsets and limits). *)
#[warnings="-register-all"]
Inductive value : Type :=
| VNone
| VBool (b : bool)
| VInt (n : Z)
| VStr (s : string)
| VList (xs : list value)
| VDict (kvs : list (string * value)).

Definition dict : Type := list (string * value).

(** Exceptions the modelled code can raise. *)
Inductive exn : Type :=
| TypeError
| ValueError
| KeyError
| AttributeError
| OverflowError
| RuntimeError.

Inductive result (A : Type) : Type :=
| Ok (a : A)
| Raise (e : exn).

Arguments Ok {A} a.
Arguments Raise {A} e.

Definition bind {A B : Type} (r : result A) (k : A -> result B) : result B :=
  match r with
  | Ok a => k a
  | Raise e => Raise e
  end.

Declare Scope py_scope.
Delimit Scope py_scope with py.
Notation "x <- c1 ;; c2" := (bind c1 (fun x => c2))
  (at level 100, c1 at next level, right associativity) : py_scope.
Notation "' p <- c1 ;; c2" := (bind c1 (fun p => c2))
  (at level 100, p pattern, c1 at next level, right associativity) : py_scope.
Local Open Scope py_scope.

(** [bool(v)]: the truth value Python's [if v:] tests. *)
Definition truthy (v : value) : bool :=
  match v with
  | VNone => false
  | VBool b => b
  | VInt n => negb (n =? 0)%Z
  | VStr s => negb (s =? "")%string
  | VList xs => match xs with [] => false | _ :: _ => true end
  | VDict kvs => match kvs with [] => false | _ :: _ => true end
  end.

(** *** Dictionaries *)

(** [d.get(k)] on the entries of a dict: [None] stands for a missing key. *)
Fixpoint dict_get (k : string) (d : dict) : option value :=
  match d with
  | [] => None
  | (k', v) :: rest => if (k =? k')%string then Some v else dict_get k rest
  end.

(** [d[k] = v]: overwrite in place, or append a new entry. *)
Fixpoint dict_set (k : string) (v : value) (d : dict) : dict :=
  match d with
  | [] => [(k, v)]
  | (k', v') :: rest =>
      if (k =? k')%string then (k, v) :: rest else (k', v') :: dict_set k v rest
  end.

(** [d.update(other)]: the entries of [other], assigned in order. *)
Definition dict_update (d other : dict) : dict :=
  fold_left (fun acc kv => dict_set (fst kv) (snd kv) acc) other d.

(** [list(d)]: the keys, in insertion order. *)
Definition dict_keys (d : dict) : list string := map fst d.

(** [v.get(k, default)] for an arbitrary value [v]: only dicts have [get]. *)
Definition py_get (v : value) (k : string) (default : value) : result value :=
  match v with
  | VDict d => Ok (match dict_get k d with Some x => x | None => default end)
  | _ => Raise AttributeError
  end.

(** [v[k]] with a string key: a dict looks the key up or raises [KeyError];
    a list or a string cannot be indexed by a string; nothing else can be
    subscripted. *)
Definition py_getitem (v : value) (k : string) : result value :=
  match v with
  | VDict d => match dict_get k d with Some x => Ok x | None => Raise KeyError end
  | _ => Raise TypeError
  end.

(** *** Integers and their decimal text *)

(** [str(n)] for an integer. *)
Definition py_str_of_int (n : Z) : string :=
  NilZero.string_of_int (Z.to_int n).

Definition is_space (c : ascii) : bool :=
  let n := nat_of_ascii c in
  orb (Nat.eqb n 32) (andb (Nat.leb 9 n) (Nat.leb n 13)).

Definition digit_of (c : ascii) : option Z :=
  let n := nat_of_ascii c in
  if andb (Nat.leb 48 n) (Nat.leb n 57) then Some (Z.of_nat n - 48) else None.

Fixpoint lstrip (s : string) : string :=
  match s with
  | String c rest => if is_space c then lstrip rest else s
  | EmptyString => s
  end.

(** The digits of an integer literal: single underscores may separate
    digits, and only white space may follow.  [acc] is the value read so
    far and [after_digit] tells whether the previous character was a
    digit. *)
Fixpoint int_digits (s : string) (acc : Z) (after_digit : bool) : option Z :=
  match s with
  | EmptyString => if after_digit then Some acc else None
  | String c rest =>
      match digit_of c with
      | Some d => int_digits rest (10 * acc + d) true
      | None =>
          if andb after_digit (Ascii.eqb c "_") then
            match rest with
            | String c' _ =>
                match digit_of c' with
                | Some _ => int_digits rest acc false
                | None => None
                end
            | EmptyString => None
            end
          else if andb after_digit (is_space c) then
            match lstrip rest with
            | EmptyString => Some acc
            | String _ _ => None
            end
          else None
      end
  end.

(** [int(s)] for a string, base ten: surrounding white space, an optional
    sign, then digits. *)
Definition int_of_string (s : string) : option Z :=
  match lstrip s with
  | String "-" rest => option_map Z.opp (int_digits rest 0 false)
  | String "+" rest => int_digits rest 0 false
  | s' => int_digits s' 0 false
  end.

(** [int(v)]. *)
Definition py_int (v : value) : result Z :=
  match v with
  | VInt n => Ok n
  | VBool b => Ok (if b then 1 else 0)
  | VStr s => match int_of_string s with Some n => Ok n | None => Raise ValueError end
  | VNone | VList _ | VDict _ => Raise TypeError
  end.

(** ** Double-precision numbers *)

(** A finite Python [float], as the rational it denotes: [dnum / dden]
    with [dden] positive.  Infinities, NaN and subnormal numbers are left
    out: the timestamps below stay far from both ends of the range. *)
Record double : Type := mk_double {
  dnum : Z;
  dden : Z
}.

(** [n / d] rounded to the nearest integer, ties to the even one, for
    [0 <= n] and [0 < d]. *)
Definition nearest_even (n d : Z) : Z :=
  let q := (n / d)%Z in
  let r := (n mod d)%Z in
  if (2 * r <? d)%Z then q
  else if (d <? 2 * r)%Z then (q + 1)%Z
  else if Z.even q then q else (q + 1)%Z.

(** The exponent [k] with [2^k <= n / d < 2^(k+1)], for positive [n], [d]. *)
Definition binade (n d : Z) : Z :=
  let k := (Z.log2 n - Z.log2 d)%Z in
  let reached :=
    if (0 <=? k)%Z then (d * 2 ^ k <=? n)%Z else (d <=? n * 2 ^ (- k))%Z in
  if reached then k else (k - 1)%Z.

(** The double nearest to [n / d], for positive [n] and [d]: a significand
    of 53 bits, round to nearest, ties to even. *)
Definition round_double (n d : Z) : double :=
  let e := (binade n d - 52)%Z in
  if (0 <=? e)%Z
  then mk_double (nearest_even n (d * 2 ^ e) * 2 ^ e) 1
  else mk_double (nearest_even (n * 2 ^ (- e)) d) (2 ^ (- e)).

(** The double nearest to [n / d], for any [n] and positive [d]. *)
Definition to_double (n d : Z) : double :=
  if (n =? 0)%Z then mk_double 0 1
  else if (n <? 0)%Z
  then let r := round_double (- n) d in mk_double (- dnum r) (dden r)
  else round_double n d.

(** [float(n)], [p / q] on integers, [a + b] and [a * b] on floats, and
    [int(a)], which truncates towards zero. *)
Definition double_of_int (n : Z) : double := to_double n 1.

Definition int_true_div (p q : Z) : double := to_double p q.

Definition double_add (a b : double) : double :=
  to_double (dnum a * dden b + dnum b * dden a) (dden a * dden b).

Definition double_mul (a b : double) : double :=
  to_double (dnum a * dnum b) (dden a * dden b).

Definition int_of_double (a : double) : Z := Z.quot (dnum a) (dden a).

(** ** Dates and times *)

(** A [datetime.datetime]: the wall-clock reading, counted in microseconds
    from 1970-01-01T00:00:00 on the same clock, and the UTC offset of its
    [tzinfo] in microseconds ([None] for a naive datetime). *)
Record datetime : Type := mk_datetime {
  wall_us : Z;
  utcoffset : option Z
}.

(** [datetime.min] and [datetime.max] on that scale: 0001-01-01T00:00:00
    and 9999-12-31T23:59:59.999999. *)
Definition MIN_WALL_US : Z := -62135596800000000.
Definition MAX_WALL_US : Z := 253402300799999999.

(** [a == b] on datetimes: two naive ones compare their readings, two aware
    ones compare the instants they denote, and a naive one never equals an
    aware one. *)
Definition dt_eqb (a b : datetime) : bool :=
  match utcoffset a, utcoffset b with
  | None, None => (wall_us a =? wall_us b)%Z
  | Some oa, Some ob => (wall_us a - oa =? wall_us b - ob)%Z
  | _, _ => false
  end.

(** [a <= b], defined by Python for two naive or two aware datetimes only. *)
Definition dt_le (a b : datetime) : Prop :=
  match utcoffset a, utcoffset b with
  | None, None => (wall_us a <= wall_us b)%Z
  | Some oa, Some ob => (wall_us a - oa <= wall_us b - ob)%Z
  | _, _ => False
  end.

(** [d + datetime.timedelta(seconds=n)]: same [tzinfo], and [OverflowError]
    outside the representable years. *)
Definition dt_add_seconds (d : datetime) (n : Z) : result datetime :=
  let w := (wall_us d + n * 1000000)%Z in
  if andb (MIN_WALL_US <=? w)%Z (w <=? MAX_WALL_US)%Z
  then Ok (mk_datetime w (utcoffset d))
  else Raise OverflowError.

(** What the Python runtime and its libraries supply and this repository
    only calls: the two parsers ([None] is their [ValueError]), the ISO
    formatter, and the host's time zone, as the UTC offset in seconds that
    local time has at a given naive reading in seconds. *)
Class Runtime : Type := {
  fromisoformat : string -> option datetime;
  dateutil_parse : string -> option datetime;
  isoformat : datetime -> string;
  local_utcoffset : Z -> Z
}.

Section DatetimeCalls.
Context {rt : Runtime}.

(** [d.timestamp()].  An aware [d] gives [(d - epoch).total_seconds()],
    the microsecond count divided by [10**6]; a naive [d] is read as local
    time, and its whole seconds and its microseconds are added as
    floats. *)
Definition timestamp (d : datetime) : double :=
  match utcoffset d with
  | Some o => int_true_div (wall_us d - o) 1000000
  | None =>
      let secs := (wall_us d / 1000000)%Z in
      let us := (wall_us d mod 1000000)%Z in
      double_add (double_of_int (secs - local_utcoffset secs))
        (int_true_div us 1000000)
  end.

(** The source's [epoch_ts]: [str(int(d.timestamp() * 1000))]. *)
Definition epoch_ts (d : datetime) : string :=
  py_str_of_int (int_of_double (double_mul (timestamp d) (double_of_int 1000))).

(** [datetime.datetime.fromisoformat(v)]. *)
Definition datetime_fromisoformat (v : value) : result datetime :=
  match v with
  | VStr s =>
      match fromisoformat s with
      | Some d => Ok d
      | None => Raise ValueError
      end
  | _ => Raise TypeError
  end.

(** [singer_sdk._singerlib.utils.strptime_to_utc(v)]: parse with
    [dateutil]; a naive result is declared to be UTC, an aware one is
    converted to UTC. *)
Definition strptime_to_utc (v : value) : result datetime :=
  match v with
  | VStr s =>
      match dateutil_parse s with
      | Some d =>
          match utcoffset d with
          | None => Ok (mk_datetime (wall_us d) (Some 0%Z))
          | Some o => Ok (mk_datetime (wall_us d - o) (Some 0%Z))
          end
      | None => Raise ValueError
      end
  | _ => Raise TypeError
  end.
End DatetimeCalls.

(** ** The stream object and what the SDK tells it *)

(** The attributes of a stream instance that the modelled methods read or
    write.  [incremental_path] is [None] when the class does not define the
    attribute ([hasattr] is false); [hs_properties] is [None] until the
    [schema] property has stored the property catalogue; [date_filter] is
    [None] for Python's [None]. *)
Record stream : Type := mk_stream {
  name : string;
  replication_method : string;
  replication_key : option string;
  incremental_path : option value;
  hs_properties : option dict;
  date_filter : option datetime;
  path : value;
  rest_method : string
}.

Definition set_date_filter (self : stream) (d : datetime) : stream :=
  mk_stream (name self) (replication_method self) (replication_key self)
    (incremental_path self) (hs_properties self) (Some d)
    (path self) (rest_method self).

Definition set_request_target (self : stream) (p : value) (m : string) : stream :=
  mk_stream (name self) (replication_method self) (replication_key self)
    (incremental_path self) (hs_properties self) (date_filter self) p m.

(** The tap state as the SDK reports it for one call:
    [self.get_starting_replication_key_value(context)] and
    [self.get_context_state(context)].  The caller owns both and may have
    advanced the progress markers between two calls. *)
Record context : Type := mk_context {
  get_starting_replication_key_value : value;
  get_context_state : value
}.

Definition REPLICATION_INCREMENTAL : string := "INCREMENTAL".

(** An optional string attribute as a Python value. *)
Definition value_of_key (k : option string) : value :=
  match k with
  | Some s => VStr s
  | None => VNone
  end.

(** Records handed to [self.logger]. *)
Inductive log_level : Type := WARNING.

Definition log_record : Type := (log_level * string)%type.

(** ** Schema helpers and iteration *)

(** The [singer_sdk.typing] helpers the schemas are built from.  An
    [ObjectType], and a [PropertiesList], which is one, keeps its
    properties by name: the entries below are in the order the names
    were first given, each name once. *)
#[warnings="-register-all"]
Inductive json_type : Type :=
| StringType
| DateTimeType
| BooleanType
| ObjectType (props : list (string * json_type)).

Definition PropertiesList : Type := list (string * json_type).

(** [PropertiesList.append(Property(name, t))], which is
    [wrapped[name] = property]: a property of that name is replaced where
    it stands, a new name goes to the end. *)
Fixpoint properties_set (n : string) (t : json_type) (props : PropertiesList)
  : PropertiesList :=
  match props with
  | [] => [(n, t)]
  | (n', t') :: rest =>
      if (n =? n')%string then (n, t) :: rest
      else (n', t') :: properties_set n t rest
  end.

(** The constructors [ObjectType] and [PropertiesList]: the properties
    given as arguments, stored by name one after the other. *)
Definition properties_list (given : list (string * json_type))
  : PropertiesList :=
  fold_left (fun acc p => properties_set (fst p) (snd p) acc) given [].

(** The arguments [RESTStream.prepare_request] hands to
    [build_prepared_request]: the method, the path the URL is made of
    (after [url_base], with the SDK's placeholder substitution), the query
    parameters and the JSON body.  The headers and the authenticator come
    from the configuration and are left out. *)
Record prepared_request : Type := mk_prepared_request {
  request_method : string;
  request_path : value;
  request_params : dict;
  request_json : dict
}.

(** The characters of a string, each as a string of its own. *)
Fixpoint chars (s : string) : list value :=
  match s with
  | EmptyString => []
  | String c rest => VStr (String c EmptyString) :: chars rest
  end.

(** What [for x in v] goes through: the items of a list, the keys of a
    dict, the characters of a string; nothing else can be iterated. *)
Definition py_iter (v : value) : result (list value) :=
  match v with
  | VList xs => Ok xs
  | VDict d => Ok (map VStr (dict_keys d))
  | VStr s => Ok (chars s)
  | VNone | VBool _ | VInt _ => Raise TypeError
  end.

Definition set_hs_properties (self : stream) (props : dict) : stream :=
  mk_stream (name self) (replication_method self) (replication_key self)
    (incremental_path self) (Some props) (date_filter self)
    (path self) (rest_method self).

(** ** class HubspotStream *)

Module HubspotStream.

Definition url_base : string := "https://api.hubapi.com/".

(** [get_next_page_token(response, previous_token)], on the decoded
    [response.json()]. *)
Definition get_next_page_token (resp_json : value) (previous_token : value)
  : result value :=
  paging <- py_get resp_json "paging" VNone ;;
  match paging with
  | VNone => Ok VNone
  | _ =>
      p <- py_get resp_json "paging" (VDict []) ;;
      n <- py_get p "next" (VDict []) ;;
      py_get n "after" VNone
  end.

(** [get_url_params(context, next_page_token)]. *)
Definition get_url_params (self : stream) (ctx : context)
    (next_page_token : value) : dict :=
  let params : dict := [] in
  let params := dict_set "limit" (VInt 100) params in
  let params :=
    if truthy next_page_token
    then dict_set "after" next_page_token params
    else params in
  let params :=
    if truthy (value_of_key (replication_key self))
    then dict_set "order_by" (value_of_key (replication_key self))
           (dict_set "sort" (VStr "asc") params)
    else params in
  params.

End HubspotStream.

(** ** class DynamicHubspotStream(HubspotStream) *)

Module DynamicHubspotStream.

(** [_get_datatype(data_type)]: every property is typed as a string. *)
Definition _get_datatype (data_type : value) : json_type := StringType.

(** The dict comprehension [{prop["name"]: prop["type"] for prop in
    results}], entry by entry on the dict built so far.  A name that is a
    list or a dict cannot be hashed.  A name that is null, a boolean or a
    number would become a key that is not a string, which the declared
    [dict[str, str]] and this model of it do not hold: the outer [None]
    marks that case. *)
Fixpoint collect_properties (props : list value) (acc : dict)
  : option (result dict) :=
  match props with
  | [] => Some (Ok acc)
  | prop :: rest =>
      match py_getitem prop "name" with
      | Raise e => Some (Raise e)
      | Ok k =>
          match py_getitem prop "type" with
          | Raise e => Some (Raise e)
          | Ok t =>
              match k with
              | VStr n => collect_properties rest (dict_set n t acc)
              | VList _ | VDict _ => Some (Raise TypeError)
              | VNone | VBool _ | VInt _ => None
              end
          end
      end
  end.

(** [_get_available_properties()], from the decoded JSON of the metadata
    response on: the request itself and [raise_for_status] come before. *)
Definition _get_available_properties (resp_json : value)
  : option (result dict) :=
  match py_get resp_json "results" (VList []) with
  | Raise e => Some (Raise e)
  | Ok results =>
      match py_iter results with
      | Raise e => Some (Raise e)
      | Ok props => collect_properties props []
      end
  end.

(** The properties declared for the catalogue: one for each item of
    [self.hs_properties.items()]. *)
Definition hs_props (catalogue : dict) : PropertiesList :=
  map (fun item => (fst item, _get_datatype (snd item))) catalogue.

(** [schema], given what the call of [_get_available_properties] returns
    or raises: the [PropertiesList] it builds, which the SDK's [to_dict]
    then renders, and the stream with [hs_properties] stored. *)
Definition schema (self : stream) (available : result dict)
  : result (PropertiesList * stream) :=
  catalogue <- available ;;
  let self := set_hs_properties self catalogue in
  Ok (properties_list
        [ ("id", StringType);
          ("properties", ObjectType (properties_list (hs_props catalogue)));
          ("createdAt", DateTimeType);
          ("updatedAt", DateTimeType);
          ("archived", BooleanType) ],
      self).

(** [get_url_params]: the parent's parameters, and the property names
    joined with commas when the catalogue is not empty. *)
Definition get_url_params (self : stream) (ctx : context)
    (next_page_token : value) : result dict :=
  let params := HubspotStream.get_url_params self ctx next_page_token in
  match hs_properties self with
  | None => Raise AttributeError
  | Some props =>
      if truthy (VDict props)
      then Ok (dict_set "properties"
                 (VStr (String.concat "," (dict_keys props))) params)
      else Ok params
  end.

End DynamicHubspotStream.

(** ** class DynamicIncrementalHubspotStream(DynamicHubspotStream) *)

Module DynamicIncrementalHubspotStream.

(** [_is_incremental_search(context)]: a chain of [and], so the result is
    the first operand that is false, or else the last operand. *)
Definition _is_incremental_search (self : stream) (ctx : context) : value :=
  if negb (replication_method self =? REPLICATION_INCREMENTAL)%string
  then VBool false
  else if negb (truthy (get_starting_replication_key_value ctx))
  then get_starting_replication_key_value ctx
  else match incremental_path self with
       | None => VBool false
       | Some p => p
       end.

(** [schema]: as in the parent class, and then [schema.append] of the
    replication key as a timestamp property when there is one. *)
Definition schema (self : stream) (available : result dict)
  : result (PropertiesList * stream) :=
  catalogue <- available ;;
  let self := set_hs_properties self catalogue in
  let schema : PropertiesList :=
    properties_list
      [ ("id", StringType);
        ("properties",
          ObjectType (properties_list (DynamicHubspotStream.hs_props catalogue)));
        ("createdAt", DateTimeType);
        ("updatedAt", DateTimeType);
        ("archived", BooleanType) ] in
  let schema :=
    match replication_key self with
    | Some key =>
        if truthy (VStr key)
        then properties_set key DateTimeType schema
        else schema
    | None => schema
    end in
  Ok (schema, self).

(** [get_url_params]: nothing in the URL for a search request. *)
Definition get_url_params (self : stream) (ctx : context)
    (next_page_token : value) : result dict :=
  if truthy (_is_incremental_search self ctx)
  then Ok []
  else DynamicHubspotStream.get_url_params self ctx next_page_token.

(** [post_process(row, context)].  The row is updated in place and
    returned. *)
Definition post_process (self : stream) (row : dict) : result value :=
  if truthy (value_of_key (replication_key self)) then
    match replication_key self with
    | Some key =>
        let props :=
          match dict_get "properties" row with
          | Some p => p
          | None => VNone
          end in
        val <- (if truthy props then py_getitem props key else Ok VNone) ;;
        Ok (VDict (dict_set key val row))
    | None => Ok (VDict row)
    end
  else Ok (VDict row).

(** The first statements of [prepare_request] (lines 285 to 288): in
    search mode the stream is pointed at the search path, with POST. *)
Definition search_target (self : stream) (ctx : context) : stream :=
  if truthy (_is_incremental_search self ctx)
  then match incremental_path self with
       | Some p => set_request_target self p "POST"
       | None => self
       end
  else self.

Definition same_cursor_warning : string :=
  "More than 10k objects in the search result have the same lastmodifieddate. Adding 1 second in the next iteration date filter to avoid getting stuck in an infinite loop.".

Section Payload.
Context {rt : Runtime}.

Definition date_filter_warning (d : datetime) : string :=
  "Date filter set to " ++ isoformat d ++ " based on progress marker value.".

(** The entries [body.update] receives. *)
Definition search_entries (self : stream) (epoch : string)
    (props : dict) : dict :=
  [ ("filterGroups",
      VList [ VDict [ ("filters",
        VList [ VDict [ ("propertyName", value_of_key (replication_key self));
                        ("operator", VStr "GTE");
                        ("value", VStr epoch) ] ]) ] ]);
    ("sorts",
      VList [ VDict [ ("propertyName", value_of_key (replication_key self));
                      ("direction", VStr "ASCENDING") ] ]);
    ("limit", VInt 100);
    ("properties", VList (map VStr (dict_keys props))) ].

(** The date filter a call works with: [self.date_filter], read from
    the starting replication value when it is still [None]. *)
Definition date_filter_in_force (self : stream) (ctx : context)
  : result datetime :=
  match date_filter self with
  | None => datetime_fromisoformat (get_starting_replication_key_value ctx)
  | Some d => Ok d
  end.

(** The source's local [next_date_filter]: the replication key value of
    the progress markers in the context state, as a UTC datetime. *)
Definition next_date_filter (ctx : context) : result datetime :=
  markers <- py_get (get_context_state ctx) "progress_markers" VNone ;;
  rkv <- py_get markers "replication_key_value" VNone ;;
  strptime_to_utc rkv.

(** [prepare_request_payload(context, next_page_token)]: the body, the
    stream with its [date_filter] as the call leaves it, and the
    warnings logged. *)
Definition prepare_request_payload (self : stream) (ctx : context)
    (next_page_token : value)
  : result (dict * stream * list log_record) :=
  let body : dict := [] in
  if truthy (_is_incremental_search self ctx) then
    df <- date_filter_in_force self ctx ;;
    ' (body, df, logs) <-
      (if truthy next_page_token then
         n <- py_int next_page_token ;;
         if (n + 100 >=? 10000)%Z then
           next_df <- next_date_filter ctx ;;
           if dt_eqb df next_df then
             df' <- dt_add_seconds df 1 ;;
             Ok (body, df',
                 [ (WARNING, same_cursor_warning);
                   (WARNING, date_filter_warning df') ])
           else
             Ok (body, next_df, [ (WARNING, date_filter_warning next_df) ])
         else Ok (dict_set "after" next_page_token body, df, [])
       else Ok (body, df, [])) ;;
    let epoch := epoch_ts df in
    props <- match hs_properties self with
             | Some props => Ok props
             | None => Raise AttributeError
             end ;;
    Ok (dict_update body (search_entries self epoch props),
        set_date_filter self df, logs)
  else Ok (body, self, []).

(** [prepare_request(context, next_page_token)], whole: the attribute
    updates, then [super().prepare_request], which reads the method and
    the path, asks [get_url_params] and then [prepare_request_payload],
    and builds the request from what they return.  The result is the
    request, the stream as the call leaves it and the warnings logged. *)
Definition prepare_request (self : stream) (ctx : context)
    (next_page_token : value)
  : result (prepared_request * stream * list log_record) :=
  let self := search_target self ctx in
  let http_method := rest_method self in
  let url := path self in
  params <- get_url_params self ctx next_page_token ;;
  ' (request_data, self, logs) <-
    prepare_request_payload self ctx next_page_token ;;
  Ok (mk_prepared_request http_method url params request_data, self, logs).

End Payload.

End DynamicIncrementalHubspotStream.

(** ** A reference runtime

    One concrete [Runtime], used to run the model on examples: ISO 8601
    texts of the shape [YYYY-MM-DDTHH:MM:SS], with an optional fraction of
    three or six digits and an optional [Z] or [+HH:MM] suffix, on a host
    whose local time is UTC. *)

Module Iso8601.

(** Days from 1970-01-01 to the given civil date (proleptic Gregorian). *)
Definition days_from_civil (y m d : Z) : Z :=
  let y' := if (m <=? 2)%Z then (y - 1)%Z else y in
  let era := (y' / 400)%Z in
  let yoe := (y' - era * 400)%Z in
  let mp := ((m + 9) mod 12)%Z in
  let doy := ((153 * mp + 2) / 5 + d - 1)%Z in
  let doe := (yoe * 365 + yoe / 4 - yoe / 100 + doy)%Z in
  (era * 146097 + doe - 719468)%Z.

(** The civil date [(year, month, day)] of a day number. *)
Definition civil_from_days (z : Z) : Z * Z * Z :=
  let z := (z + 719468)%Z in
  let era := (z / 146097)%Z in
  let doe := (z - era * 146097)%Z in
  let yoe := ((doe - doe / 1460 + doe / 36524 - doe / 146096) / 365)%Z in
  let doy := (doe - (365 * yoe + yoe / 4 - yoe / 100))%Z in
  let mp := ((5 * doy + 2) / 153)%Z in
  let d := (doy - (153 * mp + 2) / 5 + 1)%Z in
  let m := if (mp <? 10)%Z then (mp + 3)%Z else (mp - 9)%Z in
  let y := (yoe + era * 400)%Z in
  (if (m <=? 2)%Z then (y + 1)%Z else y, m, d).

Definition is_leap (y : Z) : bool :=
  andb (y mod 4 =? 0)%Z (orb (negb (y mod 100 =? 0)%Z) (y mod 400 =? 0)%Z).

Definition days_in_month (y m : Z) : Z :=
  if (m =? 2)%Z then (if is_leap y then 29 else 28)%Z
  else if orb (orb (m =? 4)%Z (m =? 6)%Z) (orb (m =? 9)%Z (m =? 11)%Z)
  then 30%Z else 31%Z.

Fixpoint take_digits (n : nat) (s : string) (acc : Z) : result (Z * string) :=
  match n with
  | O => Ok (acc, s)
  | S n' =>
      match s with
      | String c rest =>
          match digit_of c with
          | Some d => take_digits n' rest (10 * acc + d)%Z
          | None => Raise ValueError
          end
      | EmptyString => Raise ValueError
      end
  end.

Definition expect (c : ascii) (s : string) : result string :=
  match s with
  | String c' rest => if Ascii.eqb c c' then Ok rest else Raise ValueError
  | EmptyString => Raise ValueError
  end.

Definition check (b : bool) : result unit :=
  if b then Ok tt else Raise ValueError.

(** The fraction of a second, in microseconds, and the rest of the text. *)
Definition parse_fraction (s : string) : result (Z * string) :=
  match s with
  | String "." rest =>
      match take_digits 6 rest 0 with
      | Ok r => Ok r
      | Raise _ =>
          ' (ms, rest') <- take_digits 3 rest 0 ;;
          Ok ((ms * 1000)%Z, rest')
      end
  | _ => Ok (0%Z, s)
  end.

(** The UTC offset in microseconds, if the text gives one. *)
Definition parse_offset (s : string) : result (option Z) :=
  match s with
  | EmptyString => Ok None
  | String "Z" EmptyString => Ok (Some 0%Z)
  | String sign rest =>
      _ <- check (orb (Ascii.eqb sign "+") (Ascii.eqb sign "-")) ;;
      ' (h, rest) <- take_digits 2 rest 0 ;;
      rest <- expect ":" rest ;;
      ' (m, rest) <- take_digits 2 rest 0 ;;
      _ <- check (andb (andb (h <? 24)%Z (m <? 60)%Z) (rest =? "")%string) ;;
      let off := ((h * 3600 + m * 60) * 1000000)%Z in
      Ok (Some (if Ascii.eqb sign "-" then (- off)%Z else off))
  end.

Definition parse (s : string) : result datetime :=
  ' (y, s) <- take_digits 4 s 0 ;;
  s <- expect "-" s ;;
  ' (mo, s) <- take_digits 2 s 0 ;;
  s <- expect "-" s ;;
  ' (d, s) <- take_digits 2 s 0 ;;
  s <- expect "T" s ;;
  ' (h, s) <- take_digits 2 s 0 ;;
  s <- expect ":" s ;;
  ' (mi, s) <- take_digits 2 s 0 ;;
  s <- expect ":" s ;;
  ' (sec, s) <- take_digits 2 s 0 ;;
  ' (us, s) <- parse_fraction s ;;
  off <- parse_offset s ;;
  _ <- check (andb (andb (1 <=? y)%Z (andb (1 <=? mo)%Z (mo <=? 12)%Z))
               (andb (andb (1 <=? d)%Z (d <=? days_in_month y mo)%Z)
                  (andb (h <? 24)%Z (andb (mi <? 60)%Z (sec <? 60)%Z)))) ;;
  let secs := (days_from_civil y mo d * 86400 + h * 3600 + mi * 60 + sec)%Z in
  Ok (mk_datetime (secs * 1000000 + us)%Z off).

Definition parse_opt (s : string) : option datetime :=
  match parse s with
  | Ok d => Some d
  | Raise _ => None
  end.

(** [n] written with at least [width] digits. *)
Definition pad (width : nat) (n : Z) : string :=
  let s := py_str_of_int n in
  String.concat "" (repeat "0" (width - String.length s)) ++ s.

Definition format_offset (o : Z) : string :=
  let a := Z.abs o / 1000000 in
  (if (o <? 0)%Z then "-" else "+")
    ++ pad 2 (a / 3600) ++ ":" ++ pad 2 ((a / 60) mod 60).

Definition format (d : datetime) : string :=
  let secs := (wall_us d / 1000000)%Z in
  let us := (wall_us d mod 1000000)%Z in
  let '(y, mo, dd) := civil_from_days (secs / 86400) in
  let sod := (secs mod 86400)%Z in
  pad 4 y ++ "-" ++ pad 2 mo ++ "-" ++ pad 2 dd ++ "T"
    ++ pad 2 (sod / 3600) ++ ":" ++ pad 2 ((sod / 60) mod 60) ++ ":"
    ++ pad 2 (sod mod 60)
    ++ (if (us =? 0)%Z then "" else "." ++ pad 6 us)
    ++ match utcoffset d with
       | Some o => format_offset o
       | None => ""
       end.

Definition runtime : Runtime := {|
  fromisoformat := parse_opt;
  dateutil_parse := parse_opt;
  isoformat := format;
  local_utcoffset := fun _ => 0%Z
|}.

End Iso8601.

(** ** The SDK's request loop, as far as the stream sees it *)

(** The two ways of paging: callers branch on the truth value of
    [_is_incremental_search]. *)
Inductive mode : Type := LIST | SEARCH.

Definition select_mode (self : stream) (ctx : context) : mode :=
  if truthy (DynamicIncrementalHubspotStream._is_incremental_search self ctx)
  then SEARCH else LIST.

(** The three conditions of search mode. *)
Definition search_conditions (self : stream) (ctx : context) : Prop :=
  replication_method self = REPLICATION_INCREMENTAL
  /\ truthy (get_starting_replication_key_value ctx) = true
  /\ exists p, incremental_path self = Some p /\ truthy p = true.

(** [BaseAPIPaginator.advance] marks the paginator finished, and the loop
    sends no further request, when the token read from the response is
    false in Python's sense. *)
Definition paginator_finished (next_token : value) : bool :=
  negb (truthy next_token).

(** The value at a path of keys in a JSON document, when every step of the
    path exists. *)
Fixpoint json_path (ks : list string) (v : value) : option value :=
  match ks with
  | [] => Some v
  | k :: ks' =>
      match v with
      | VDict d =>
          match dict_get k d with
          | Some x => json_path ks' x
          | None => None
          end
      | _ => None
      end
  end.

(** The response envelope [{results, paging?: {next?: {after}}}]: an object
    whose [paging], when given, is null or an object, whose [next], when
    given, is an object. *)
Definition well_formed_envelope (resp : value) : bool :=
  match resp with
  | VDict d =>
      match dict_get "paging" d with
      | None | Some VNone => true
      | Some (VDict p) =>
          match dict_get "next" p with
          | None | Some (VDict _) => true
          | Some _ => false
          end
      | Some _ => false
      end
  | _ => false
  end.

(** The filter value of a search body:
    [body["filterGroups"][0]["filters"][0]["value"]]. *)
Definition filter_value (body : dict) : option value :=
  match dict_get "filterGroups" body with
  | Some (VList (VDict g :: _)) =>
      match dict_get "filters" g with
      | Some (VList (VDict f :: _)) => dict_get "value" f
      | _ => None
      end
  | _ => None
  end.

Section Runs.
Context {rt : Runtime}.

(** The rollover test of [prepare_request_payload] holds for a token. *)
Definition rollover_fires (next_page_token : value) : Prop :=
  truthy next_page_token = true /\
  exists n, py_int next_page_token = Ok n /\ (n + 100 >= 10000)%Z.

(** When the rollover fires, the progress marker is not behind the date
    filter in force. *)
Definition marker_not_behind (self : stream) (ctx : context)
    (next_page_token : value) : Prop :=
  rollover_fires next_page_token ->
  forall d m,
    DynamicIncrementalHubspotStream.date_filter_in_force self ctx = Ok d ->
    DynamicIncrementalHubspotStream.next_date_filter ctx = Ok m ->
    dt_le d m.

(** A run: successive calls of [prepare_request_payload] on one stream
    object, each with the context state and the page token the SDK has at
    that point; the third argument lists the stream as each call leaves
    it. *)
Inductive run : stream -> list (context * value) -> list stream -> Prop :=
| run_done : forall self, run self [] []
| run_call : forall self ctx tok body self' logs rest trace,
    DynamicIncrementalHubspotStream.prepare_request_payload self ctx tok
      = Ok (body, self', logs) ->
    run self' rest trace ->
    run self ((ctx, tok) :: rest) (self' :: trace).

(** A run in which no rollover reads a marker that is behind. *)
Inductive guarded_run : stream -> list (context * value) -> list stream -> Prop :=
| guarded_done : forall self, guarded_run self [] []
| guarded_call : forall self ctx tok body self' logs rest trace,
    marker_not_behind self ctx tok ->
    DynamicIncrementalHubspotStream.prepare_request_payload self ctx tok
      = Ok (body, self', logs) ->
    guarded_run self' rest trace ->
    guarded_run self ((ctx, tok) :: rest) (self' :: trace).

(** Starting from [d], every stream of the trace has a date filter, and
    each is greater than or equal to the one before it. *)
Fixpoint date_filters_ascend (d : datetime) (trace : list stream) : Prop :=
  match trace with
  | [] => True
  | s :: rest =>
      exists d', date_filter s = Some d' /\ dt_le d d'
                 /\ date_filters_ascend d' rest
  end.
End Runs.

(** ** Epoch milliseconds, in exact arithmetic *)

Section EpochMilliseconds.
Context {rt : Runtime}.

(** The microseconds from the epoch to the instant a datetime denotes; a
    naive one is read as local time. *)
Definition instant_us (d : datetime) : Z :=
  match utcoffset d with
  | Some o => (wall_us d - o)%Z
  | None =>
      (wall_us d - local_utcoffset (wall_us d / 1000000) * 1000000)%Z
  end.

(** A datetime expressed as epoch milliseconds, as the specification
    words it: the whole milliseconds from the epoch to its instant.  This
    is the number [epoch_ts] is meant to write. *)
Definition epoch_milliseconds (d : datetime) : Z := (instant_us d / 1000)%Z.

End EpochMilliseconds.

(** ** Reading catalogues and schemas *)

(** The name and the declared type of one entry of the metadata response,
    when the entry is an object that gives a string as [name] and gives a
    [type]. *)
Definition entry_name_type (entry : value) : option (string * value) :=
  match entry with
  | VDict d =>
      match dict_get "name" d, dict_get "type" d with
      | Some (VStr n), Some t => Some (n, t)
      | _, _ => None
      end
  | _ => None
  end.

(** The type a [PropertiesList] declares for a name: the first property of
    that name. *)
Fixpoint property_type (n : string) (props : PropertiesList)
  : option json_type :=
  match props with
  | [] => None
  | (n', t) :: rest =>
      if (n =? n')%string then Some t else property_type n rest
  end.

(** The five properties both schemas start from. *)
Definition envelope_names : list string :=
  [ "id"; "properties"; "createdAt"; "updatedAt"; "archived" ].

(** The names declared inside the [properties] object of a schema. *)
Definition nested_names (schema : PropertiesList) : option (list string) :=
  match property_type "properties" schema with
  | Some (ObjectType props) => Some (map fst props)
  | _ => None
  end.

(** ** Sample objects *)

Module Sample.

Definition contacts_properties : dict :=
  [ ("email", VStr "string");
    ("lastmodifieddate", VStr "datetime");
    ("hs_object_id", VStr "number") ].

(** A contacts stream with a search endpoint, before its first request. *)
Definition contacts : stream := {|
  name := "contacts";
  replication_method := "INCREMENTAL";
  replication_key := Some "lastmodifieddate";
  incremental_path := Some (VStr "/crm/v3/objects/contacts/search");
  hs_properties := Some contacts_properties;
  date_filter := None;
  path := VStr "/crm/v3/objects/contacts";
  rest_method := "GET"
|}.

(** The same stream before its schema has been read. *)
Definition contacts_unread : stream := {|
  name := "contacts";
  replication_method := "INCREMENTAL";
  replication_key := Some "lastmodifieddate";
  incremental_path := Some (VStr "/crm/v3/objects/contacts/search");
  hs_properties := None;
  date_filter := None;
  path := VStr "/crm/v3/objects/contacts";
  rest_method := "GET"
|}.

Definition june (day : Z) : datetime :=
  mk_datetime ((1685577600 + (day - 1) * 86400) * 1000000) (Some 0%Z).

(** The same stream in the middle of a run, its date filter set. *)
Definition contacts_at (d : datetime) : stream := set_date_filter contacts d.

(** A full-table stream without a replication key. *)
Definition owners : stream := {|
  name := "owners";
  replication_method := "FULL_TABLE";
  replication_key := None;
  incremental_path := None;
  hs_properties := Some [ ("email", VStr "string") ];
  date_filter := None;
  path := VStr "/crm/v3/owners";
  rest_method := "GET"
|}.

(** The context state with a starting value and a progress marker. *)
Definition state_with (start marker : string) : context := {|
  get_starting_replication_key_value := VStr start;
  get_context_state :=
    VDict [ ("starting_replication_value", VStr start);
            ("progress_markers",
              VDict [ ("replication_key", VStr "lastmodifieddate");
                      ("replication_key_value", VStr marker) ]) ]
|}.

(** A first run: no state yet. *)
Definition fresh : context := {|
  get_starting_replication_key_value := VNone;
  get_context_state := VDict []
|}.

(** The body of a search request for contacts changed since [epoch]. *)
Definition search_body (epoch : string) : dict :=
  [ ("filterGroups",
      VList [ VDict [ ("filters",
        VList [ VDict [ ("propertyName", VStr "lastmodifieddate");
                        ("operator", VStr "GTE");
                        ("value", VStr epoch) ] ]) ] ]);
    ("sorts",
      VList [ VDict [ ("propertyName", VStr "lastmodifieddate");
                      ("direction", VStr "ASCENDING") ] ]);
    ("limit", VInt 100);
    ("properties",
      VList [ VStr "email"; VStr "lastmodifieddate"; VStr "hs_object_id" ]) ].

(** A metadata response: [lastmodifieddate] is listed twice. *)
Definition metadata : value :=
  VDict [ ("results",
    VList [ VDict [ ("name", VStr "email"); ("type", VStr "string");
                    ("label", VStr "Email") ];
            VDict [ ("name", VStr "lastmodifieddate"); ("type", VStr "date") ];
            VDict [ ("name", VStr "hs_object_id"); ("type", VStr "number") ];
            VDict [ ("name", VStr "lastmodifieddate");
                    ("type", VStr "datetime") ] ]) ].

Definition page (after : value) : value :=
  VDict [ ("results", VList []);
          ("paging", VDict [ ("next", VDict [ ("after", after) ]) ]) ].

Definition last_page : value := VDict [ ("results", VList []) ].

Definition row_with (props : value) : dict :=
  [ ("id", VStr "51"); ("properties", props); ("archived", VBool false) ].

End Sample.

(** * Running the model *)

Section Examples.
#[local] Existing Instance Iso8601.runtime.
Import DynamicIncrementalHubspotStream.

Example py_int_9905 : py_int (VStr "9905") = Ok 9905%Z.
Proof. reflexivity. Qed.

Example py_int_spaced : py_int (VStr " +9_900 ") = Ok 9900%Z.
Proof. reflexivity. Qed.

Example py_int_empty : py_int (VStr "") = Raise ValueError.
Proof. reflexivity. Qed.

Example py_int_none : py_int VNone = Raise TypeError.
Proof. reflexivity. Qed.

Example py_str_of_int_neg : py_str_of_int (-5) = "-5".
Proof. reflexivity. Qed.

Example parse_june_first :
  Iso8601.parse "2023-06-01T00:00:00Z" = Ok (Sample.june 1).
Proof. reflexivity. Qed.

Example parse_offset_millis :
  Iso8601.parse "2023-06-02T10:11:12.345+02:00"
  = Ok (mk_datetime 1685700672345000 (Some 7200000000%Z)).
Proof. reflexivity. Qed.

Example parse_rejects_month :
  Iso8601.parse "2023-13-01T00:00:00" = Raise ValueError.
Proof. reflexivity. Qed.

Example format_june_second :
  Iso8601.format (Sample.june 2) = "2023-06-02T00:00:00+00:00".
Proof. reflexivity. Qed.

Example format_naive_micro :
  Iso8601.format (mk_datetime 1685700672345000 None)
  = "2023-06-02T10:11:12.345000".
Proof. reflexivity. Qed.

Example epoch_ts_june_second : epoch_ts (Sample.june 2) = "1685664000000".
Proof. reflexivity. Qed.

(** 2023-06-02T10:11:12.345Z, to the millisecond. *)
Example epoch_ts_millis :
  epoch_ts (mk_datetime 1685700672345000 (Some 0%Z)) = "1685700672345".
Proof. reflexivity. Qed.

(** 2004-03-15T20:08:16.597Z: the double nearest to the seconds, times
    1000, falls just below 1079381296597 and [int] cuts it down. *)
Example epoch_ts_one_short :
  Iso8601.parse "2004-03-15T20:08:16.597Z"
  = Ok (mk_datetime 1079381296597000 (Some 0%Z))
  /\ epoch_ts (mk_datetime 1079381296597000 (Some 0%Z)) = "1079381296596".
Proof. split; reflexivity. Qed.

(** A naive reading on a host two hours east of UTC. *)
Example epoch_ts_naive_local :
  @epoch_ts {| fromisoformat := Iso8601.parse_opt;
               dateutil_parse := Iso8601.parse_opt;
               isoformat := Iso8601.format;
               local_utcoffset := fun _ => 7200%Z |}
    (mk_datetime 1685584800000000 None) = "1685577600000".
Proof. reflexivity. Qed.

(** Aware datetimes are compared as instants. *)
Example same_instant_other_zone :
  dt_eqb (mk_datetime 1685584800000000 (Some 7200000000%Z)) (Sample.june 1)
  = true.
Proof. reflexivity. Qed.

Example naive_never_equals_aware :
  dt_eqb (mk_datetime 1685577600000000 None) (Sample.june 1) = false.
Proof. reflexivity. Qed.

(** No starting replication value: LIST mode; the first request has no
    [after], and the token of a response is sent back as [after]. *)
Example list_scenario :
  select_mode Sample.contacts Sample.fresh = LIST
  /\ get_url_params Sample.contacts Sample.fresh VNone
     = Ok [ ("limit", VInt 100); ("sort", VStr "asc");
            ("order_by", VStr "lastmodifieddate");
            ("properties", VStr "email,lastmodifieddate,hs_object_id") ]
  /\ HubspotStream.get_next_page_token (Sample.page (VStr "100")) VNone
     = Ok (VStr "100")
  /\ get_url_params Sample.contacts Sample.fresh (VStr "100")
     = Ok [ ("limit", VInt 100); ("after", VStr "100"); ("sort", VStr "asc");
            ("order_by", VStr "lastmodifieddate");
            ("properties", VStr "email,lastmodifieddate,hs_object_id") ].
Proof. repeat split; reflexivity. Qed.

(** Date filter 2023-06-01, token 9905, marker 2023-06-02: the window
    rolls over to the marker and the body has no [after]. *)
Example search_rollover_scenario :
  prepare_request_payload (Sample.contacts_at (Sample.june 1))
    (Sample.state_with "2023-06-01T00:00:00Z" "2023-06-02T00:00:00Z")
    (VStr "9905")
  = Ok (Sample.search_body "1685664000000",
        Sample.contacts_at (Sample.june 2),
        [ (WARNING,
           "Date filter set to 2023-06-02T00:00:00+00:00 based on progress marker value.") ]).
Proof. reflexivity. Qed.

(** The first search request of a run reads its date filter from the
    starting replication value. *)
Example search_first_page :
  exists body,
    prepare_request_payload Sample.contacts
      (Sample.state_with "2023-06-01T00:00:00Z" "2023-06-01T00:00:00Z") VNone
    = Ok (body, Sample.contacts_at (Sample.june 1), [])
    /\ dict_get "after" body = None
    /\ filter_value body = Some (VStr "1685577600000").
Proof. eexists. repeat split; reflexivity. Qed.

(** Inside the window the token travels in the body. *)
Example search_next_page :
  exists body,
    prepare_request_payload (Sample.contacts_at (Sample.june 1))
      (Sample.state_with "2023-06-01T00:00:00Z" "2023-06-01T08:00:00Z")
      (VStr "200")
    = Ok (body, Sample.contacts_at (Sample.june 1), [])
    /\ dict_get "after" body = Some (VStr "200").
Proof. eexists. split; reflexivity. Qed.

Example post_process_sample :
  post_process Sample.contacts
    (Sample.row_with (VDict [ ("lastmodifieddate", VStr "2023-01-01T00:00:00Z") ]))
  = Ok (VDict [ ("id", VStr "51");
                ("properties",
                  VDict [ ("lastmodifieddate", VStr "2023-01-01T00:00:00Z") ]);
                ("archived", VBool false);
                ("lastmodifieddate", VStr "2023-01-01T00:00:00Z") ]).
Proof. reflexivity. Qed.

Example post_process_null_properties :
  post_process Sample.contacts (Sample.row_with VNone)
  = Ok (VDict [ ("id", VStr "51"); ("properties", VNone);
                ("archived", VBool false); ("lastmodifieddate", VNone) ]).
Proof. reflexivity. Qed.

Example next_token_null_next :
  HubspotStream.get_next_page_token
    (VDict [ ("paging", VDict [ ("next", VNone) ]) ]) VNone
  = Raise AttributeError.
Proof. reflexivity. Qed.

Example prepare_request_search :
  prepare_request Sample.contacts
    (Sample.state_with "2023-06-01T00:00:00Z" "2023-06-01T00:00:00Z") VNone
  = Ok (mk_prepared_request "POST" (VStr "/crm/v3/objects/contacts/search")
          [] (Sample.search_body "1685577600000"),
        set_date_filter
          (set_request_target Sample.contacts
             (VStr "/crm/v3/objects/contacts/search") "POST")
          (Sample.june 1),
        []).
Proof. reflexivity. Qed.

Example prepare_request_list :
  prepare_request Sample.contacts Sample.fresh (VStr "100")
  = Ok (mk_prepared_request "GET" (VStr "/crm/v3/objects/contacts")
          [ ("limit", VInt 100); ("after", VStr "100"); ("sort", VStr "asc");
            ("order_by", VStr "lastmodifieddate");
            ("properties", VStr "email,lastmodifieddate,hs_object_id") ]
          [],
        Sample.contacts, []).
Proof. reflexivity. Qed.

End Examples.

(** * Properties *)

(** ** Dictionaries and values *)

Lemma dict_get_set_same (k : string) (v : value) (d : dict) :
  dict_get k (dict_set k v d) = Some v.
Proof.
  induction d as [|[k' v'] rest IH]; simpl.
  - now rewrite String.eqb_refl.
  - destruct (k =? k')%string eqn:E; simpl.
    + now rewrite String.eqb_refl.
    + now rewrite E.
Qed.

Lemma dict_get_set_other (k k' : string) (v : value) (d : dict) :
  k <> k' -> dict_get k (dict_set k' v d) = dict_get k d.
Proof.
  intros Hne. apply String.eqb_neq in Hne.
  induction d as [|[k0 v0] rest IH]; simpl.
  - now rewrite Hne.
  - destruct (k' =? k0)%string eqn:E; simpl.
    + apply String.eqb_eq in E. subst k0. now rewrite Hne.
    + now rewrite IH.
Qed.

Lemma truthy_key (k : option string) :
  truthy (value_of_key k) = true <-> exists s, k = Some s /\ s <> "".
Proof.
  destruct k as [s|]; simpl; split.
  - intros H. exists s. split; [reflexivity|].
    intros ->. discriminate.
  - intros [s' [[= <-] Hne]].
    apply String.eqb_neq in Hne. now rewrite Hne.
  - discriminate.
  - intros [s [[=] _]].
Qed.

Lemma int_of_string_nonempty (s : string) (n : Z) :
  int_of_string s = Some n -> s <> "".
Proof. intros H ->. discriminate. Qed.

(** A token whose [int] is not zero passes [if next_page_token:]. *)
Lemma py_int_truthy (t : value) (n : Z) :
  py_int t = Ok n -> (1 < n)%Z -> truthy t = true.
Proof.
  destruct t as [| b | z | s | xs | kvs]; simpl; try discriminate.
  - destruct b; intros [= <-]; lia.
  - intros [= ->] Hn. destruct (Z.eqb_spec n 0); [lia | reflexivity].
  - destruct (int_of_string s) eqn:E; [|discriminate].
    intros _ _. apply int_of_string_nonempty in E.
    apply String.eqb_neq in E. now rewrite E.
Qed.

Lemma set_date_filter_same (self : stream) (d : datetime) :
  date_filter self = Some d -> set_date_filter self d = self.
Proof. destruct self; simpl; intros ->; reflexivity. Qed.

(** ** Double precision *)

Lemma nearest_even_multiple (m d : Z) :
  (0 < d)%Z -> nearest_even (m * d) d = m.
Proof.
  intros Hd. unfold nearest_even.
  rewrite Z.mod_mul by lia. rewrite Z.div_mul by lia.
  destruct (Z.ltb_spec (2 * 0) d); [reflexivity | lia].
Qed.

Lemma binade_multiple (v d : Z) :
  (0 < v)%Z -> (0 < d)%Z -> binade (v * d) d = Z.log2 v.
Proof.
  intros Hv Hd. unfold binade.
  pose proof (Z.log2_mul_below v d Hv Hd) as Hlo.
  pose proof (Z.log2_mul_above v d) as Hhi.
  assert (Hhi' : (Z.log2 (v * d) <= Z.log2 v + Z.log2 d + 1)%Z) by (apply Hhi; lia).
  pose proof (Z.log2_nonneg v) as Hnn.
  destruct (Z.log2_spec v Hv) as [Hv1 Hv2].
  set (k := (Z.log2 (v * d) - Z.log2 d)%Z).
  assert (Hk : k = Z.log2 v \/ k = (Z.log2 v + 1)%Z) by (unfold k; lia).
  destruct (Z.leb_spec 0 k); [|lia].
  destruct Hk as [Hk | Hk]; rewrite Hk.
  - destruct (Z.leb_spec (d * 2 ^ Z.log2 v) (v * d)); [reflexivity | nia].
  - replace (Z.succ (Z.log2 v)) with (Z.log2 v + 1)%Z in Hv2 by lia.
    destruct (Z.leb_spec (d * 2 ^ (Z.log2 v + 1)) (v * d)); [nia | lia].
Qed.

(** An integer below [2^53] is a double: rounding leaves it as it is. *)
Lemma to_double_exact (v d : Z) :
  (0 <= v < 2 ^ 53)%Z -> (0 < d)%Z ->
  (0 < dden (to_double (v * d) d))%Z
  /\ dnum (to_double (v * d) d) = (v * dden (to_double (v * d) d))%Z.
Proof.
  intros [Hv0 Hv] Hd. unfold to_double.
  destruct (Z.eqb_spec (v * d) 0) as [Hz | Hnz].
  - simpl. assert (v = 0%Z) by nia. subst v. split; lia.
  - assert (Hpos : (0 < v)%Z) by nia.
    destruct (Z.ltb_spec (v * d) 0); [nia|].
    unfold round_double. rewrite (binade_multiple v d Hpos Hd).
    assert (Hlog : (Z.log2 v <= 52)%Z).
    { assert (Z.log2 v < 53)%Z; [|lia]. apply Z.log2_lt_pow2; lia. }
    destruct (Z.leb_spec 0 (Z.log2 v - 52)).
    + replace (Z.log2 v - 52)%Z with 0%Z by lia.
      change (2 ^ 0)%Z with 1%Z. cbn [dnum dden].
      rewrite !Z.mul_1_r, (nearest_even_multiple v d Hd). split; lia.
    + cbn [dnum dden].
      assert (Hp : (0 < 2 ^ (- (Z.log2 v - 52)))%Z) by (apply Z.pow_pos_nonneg; lia).
      replace (v * d * 2 ^ (- (Z.log2 v - 52)))%Z
        with ((v * 2 ^ (- (Z.log2 v - 52))) * d)%Z by ring.
      rewrite (nearest_even_multiple _ d Hd). split; [assumption | reflexivity].
Qed.

(** ** Datetimes *)

Lemma dt_le_refl (d : datetime) : dt_le d d.
Proof. unfold dt_le. destruct (utcoffset d); lia. Qed.

Lemma dt_le_trans (a b c : datetime) : dt_le a b -> dt_le b c -> dt_le a c.
Proof.
  unfold dt_le.
  destruct (utcoffset a), (utcoffset b), (utcoffset c); try tauto; lia.
Qed.

Lemma dt_add_seconds_ok (d : datetime) :
  (MIN_WALL_US <= wall_us d)%Z -> (wall_us d + 1000000 <= MAX_WALL_US)%Z ->
  dt_add_seconds d 1
  = Ok (mk_datetime (wall_us d + 1000000) (utcoffset d)).
Proof.
  intros Hlo Hhi. unfold dt_add_seconds.
  replace (wall_us d + 1 * 1000000)%Z with (wall_us d + 1000000)%Z by lia.
  destruct (Z.leb_spec MIN_WALL_US (wall_us d + 1000000));
    destruct (Z.leb_spec (wall_us d + 1000000) MAX_WALL_US);
    simpl; try reflexivity; lia.
Qed.

(** Adding a second never moves a datetime back. *)
Lemma dt_add_seconds_le (d d' : datetime) :
  dt_add_seconds d 1 = Ok d' -> dt_le d d'.
Proof.
  unfold dt_add_seconds.
  destruct (andb _ _); [|discriminate].
  intros [= <-]. unfold dt_le; simpl. destruct (utcoffset d); lia.
Qed.

Section DatetimeProperties.
Context {rt : Runtime}.

(** [strptime_to_utc] always answers in UTC. *)
Lemma strptime_to_utc_aware (v : value) (m : datetime) :
  strptime_to_utc v = Ok m -> utcoffset m = Some 0%Z.
Proof.
  unfold strptime_to_utc.
  destruct v; try discriminate.
  destruct (dateutil_parse s) as [p|]; [|discriminate].
  destruct (utcoffset p); intros [= <-]; reflexivity.
Qed.

(** X21: on a whole second from the epoch on, the text is the exact count of
    milliseconds. *)
Lemma epoch_ts_whole_second (d : datetime) (o s : Z) :
  utcoffset d = Some o ->
  (wall_us d - o = s * 1000000)%Z ->
  (0 <= s)%Z -> (s * 1000 < 2 ^ 53)%Z ->
  epoch_ts d = py_str_of_int (s * 1000).
Proof.
  intros Ho Hw Hs0 Hs. unfold epoch_ts, timestamp. rewrite Ho, Hw.
  unfold int_true_div, double_of_int, double_mul, int_of_double.
  destruct (to_double_exact s 1000000) as [Hd1 Hn1]; [lia | lia |].
  destruct (to_double_exact 1000 1) as [Hd2 Hn2]; [lia | lia |].
  rewrite Z.mul_1_r in Hd2, Hn2.
  set (a := to_double (s * 1000000) 1000000) in *.
  set (b := to_double 1000 1) in *.
  rewrite Hn1, Hn2.
  replace (s * dden a * (1000 * dden b))%Z
    with ((s * 1000) * (dden a * dden b))%Z by ring.
  destruct (to_double_exact (s * 1000) (dden a * dden b)) as [Hd3 Hn3]; [lia | nia |].
  rewrite Hn3. rewrite Z.quot_mul by lia. reflexivity.
Qed.

End DatetimeProperties.

(** ** Mode selection *)

Import DynamicIncrementalHubspotStream.

Lemma is_incremental_search_truthy (self : stream) (ctx : context) :
  truthy (_is_incremental_search self ctx) = true <-> search_conditions self ctx.
Proof.
  unfold _is_incremental_search, search_conditions.
  destruct (String.eqb_spec (replication_method self) REPLICATION_INCREMENTAL)
    as [Hm|Hm]; simpl.
  - destruct (truthy (get_starting_replication_key_value ctx)) eqn:Hs; simpl.
    + destruct (incremental_path self) as [p|]; simpl.
      * split.
        -- intros Hp. repeat split; trivial. now exists p.
        -- intros (_ & _ & p' & [= <-] & Hp). exact Hp.
      * split; [discriminate|]. intros (_ & _ & p' & [=] & _).
    + rewrite Hs. split; [discriminate|]. intros (_ & [=] & _).
  - split; [discriminate|]. intros (Hm' & _). contradiction.
Qed.

(** C5: the mode selector answers SEARCH exactly when the replication
    method is incremental, a starting replication value is available and
    the stream declares a non-empty search path; in every other case it
    answers LIST. *)
Theorem select_mode_search_iff (self : stream) (ctx : context) :
  (select_mode self ctx = SEARCH <-> search_conditions self ctx)
  /\ (select_mode self ctx = LIST <-> ~ search_conditions self ctx).
Proof.
  unfold select_mode.
  pose proof (is_incremental_search_truthy self ctx) as [H1 H2].
  destruct (truthy (_is_incremental_search self ctx)).
  - split; split; intros H; auto; try discriminate.
    exfalso. apply H. now apply H1.
  - split; split; intros H; auto; try discriminate.
    + specialize (H2 H). discriminate.
    + intros Hc. specialize (H2 Hc). discriminate.
Qed.

Lemma select_mode_search (self : stream) (ctx : context) :
  select_mode self ctx = SEARCH ->
  truthy (_is_incremental_search self ctx) = true.
Proof.
  unfold select_mode.
  destruct (truthy (_is_incremental_search self ctx)); [reflexivity|discriminate].
Qed.

Lemma select_mode_list (self : stream) (ctx : context) :
  select_mode self ctx = LIST ->
  truthy (_is_incremental_search self ctx) = false.
Proof.
  unfold select_mode.
  destruct (truthy (_is_incremental_search self ctx)); [discriminate|reflexivity].
Qed.

(** ** URL parameters *)

(** C10: in search mode [get_url_params] returns the empty mapping, so no
    [limit], [after], [sort] or [order_by] goes into the URL. *)
Theorem search_url_params_empty (self : stream) (ctx : context) (tok : value) :
  select_mode self ctx = SEARCH ->
  get_url_params self ctx tok = Ok []
  /\ forall k, dict_get k [] = None.
Proof.
  intros Hm. unfold get_url_params.
  rewrite (select_mode_search _ _ Hm). split; reflexivity.
Qed.

Lemma search_url_params_empty_witness :
  get_url_params Sample.contacts
    (Sample.state_with "2023-06-01T00:00:00Z" "2023-06-01T00:00:00Z")
    (VStr "100") = Ok []
  /\ forall k, dict_get k [] = None.
Proof.
  apply search_url_params_empty. reflexivity.
Defined.

Lemma base_url_params_shape (self : stream) (ctx : context) (tok : value) :
  HubspotStream.get_url_params self ctx tok
  = ([ ("limit", VInt 100) ]
     ++ (if truthy tok then [ ("after", tok) ] else [])
     ++ (if truthy (value_of_key (replication_key self))
         then [ ("sort", VStr "asc");
                ("order_by", value_of_key (replication_key self)) ]
         else []))%list.
Proof.
  unfold HubspotStream.get_url_params.
  destruct (truthy tok), (truthy (value_of_key (replication_key self)));
    reflexivity.
Qed.

(** C8, as the code has it: in LIST mode the parameters hold [limit=100];
    [after] is the prior page's token exactly when that token is present;
    and when a replication cursor exists they hold [sort=asc] and
    [order_by=<cursor>], and neither key otherwise. *)
Theorem list_url_params (self : stream) (ctx : context) (tok : value) :
  let params := HubspotStream.get_url_params self ctx tok in
  dict_get "limit" params = Some (VInt 100)
  /\ dict_get "after" params = (if truthy tok then Some tok else None)
  /\ dict_get "sort" params
     = (if truthy (value_of_key (replication_key self))
        then Some (VStr "asc") else None)
  /\ dict_get "order_by" params
     = (if truthy (value_of_key (replication_key self))
        then Some (value_of_key (replication_key self)) else None).
Proof.
  cbv zeta. rewrite base_url_params_shape.
  destruct (truthy tok), (truthy (value_of_key (replication_key self)));
    repeat split; reflexivity.
Qed.

(** C8 as stated fails: with the cursor [lastmodifieddate] the [sort]
    parameter is the literal [asc], not the cursor. *)
Lemma sort_param_is_not_cursor :
  replication_key Sample.contacts = Some "lastmodifieddate"
  /\ dict_get "sort" (HubspotStream.get_url_params Sample.contacts Sample.fresh VNone)
     = Some (VStr "asc")
  /\ dict_get "sort" (HubspotStream.get_url_params Sample.contacts Sample.fresh VNone)
     <> Some (VStr "lastmodifieddate").
Proof. repeat split; try reflexivity. discriminate. Qed.

(** The parameters of the incremental stream in LIST mode are those of the
    base class, with the property names when the catalogue is not empty. *)
Lemma list_mode_url_params (self : stream) (ctx : context) (tok : value)
    (props : dict) :
  select_mode self ctx = LIST ->
  hs_properties self = Some props ->
  exists params,
    get_url_params self ctx tok = Ok params
    /\ forall k, k <> "properties" ->
         dict_get k params
         = dict_get k (HubspotStream.get_url_params self ctx tok).
Proof.
  intros Hm Hp. unfold get_url_params, DynamicHubspotStream.get_url_params.
  rewrite (select_mode_list _ _ Hm), Hp.
  destruct (truthy (VDict props)); eexists; split; try reflexivity.
  intros k Hk. now apply dict_get_set_other.
Qed.

(** ** Next-page token *)

Lemma well_formed_envelope_cases (resp : value) :
  well_formed_envelope resp = true ->
  exists d, resp = VDict d /\
    (dict_get "paging" d = None
     \/ dict_get "paging" d = Some VNone
     \/ exists p, dict_get "paging" d = Some (VDict p)
          /\ (dict_get "next" p = None
              \/ exists n, dict_get "next" p = Some (VDict n))).
Proof.
  destruct resp as [| | | | |d]; simpl; try discriminate.
  intros H. exists d. split; [reflexivity|].
  destruct (dict_get "paging" d) as [[| | | | |p]|]; try discriminate; auto.
  right; right. exists p. split; [reflexivity|].
  destruct (dict_get "next" p) as [[| | | | |n]|]; try discriminate; eauto.
Qed.

(** C6: on a response envelope, [get_next_page_token] returns the value at
    [paging.next.after] when there is one, and [None] when [paging] or
    [paging.next.after] is absent; [None] ends the pagination. *)
Theorem next_page_token_of_envelope (resp prev : value) :
  well_formed_envelope resp = true ->
  (forall v, json_path ["paging"; "next"; "after"] resp = Some v ->
     HubspotStream.get_next_page_token resp prev = Ok v)
  /\ (json_path ["paging"] resp = None
      \/ json_path ["paging"; "next"; "after"] resp = None ->
      HubspotStream.get_next_page_token resp prev = Ok VNone
      /\ paginator_finished VNone = true).
Proof.
  intros Hwf.
  destruct (well_formed_envelope_cases resp Hwf) as (d & -> & Hcases).
  unfold HubspotStream.get_next_page_token. simpl.
  destruct Hcases as [Hp | [Hp | (p & Hp & Hn)]]; rewrite Hp; simpl.
  - split; [discriminate | intros _; split; reflexivity].
  - split; [discriminate | intros _; split; reflexivity].
  - destruct Hn as [Hn | (n & Hn)]; rewrite Hn; simpl.
    + split; [discriminate | intros _; split; reflexivity].
    + destruct (dict_get "after" n) as [a|].
      * split; [now intros v [= <-] | intros [H | H]; discriminate].
      * split; [discriminate | intros _; split; reflexivity].
Qed.

Lemma next_page_token_of_envelope_witness :
  (forall v, json_path ["paging"; "next"; "after"] (Sample.page (VStr "100")) = Some v ->
     HubspotStream.get_next_page_token (Sample.page (VStr "100")) VNone = Ok v)
  /\ (json_path ["paging"] (Sample.page (VStr "100")) = None
      \/ json_path ["paging"; "next"; "after"] (Sample.page (VStr "100")) = None ->
      HubspotStream.get_next_page_token (Sample.page (VStr "100")) VNone = Ok VNone
      /\ paginator_finished VNone = true).
Proof.
  apply (next_page_token_of_envelope (Sample.page (VStr "100")) VNone).
  reflexivity.
Defined.

(** The last page of a listing: no [paging] at all. *)
Lemma next_page_token_last_page :
  HubspotStream.get_next_page_token Sample.last_page (VStr "100") = Ok VNone.
Proof. reflexivity. Qed.

(** ** Post-processing *)

(** X3: [post_process] never answers [None]: no record is dropped. *)
Lemma post_process_keeps_record (self : stream) (row : dict) (r : value) :
  post_process self row = Ok r -> exists row', r = VDict row'.
Proof.
  unfold post_process.
  destruct (truthy (value_of_key (replication_key self))).
  - destruct (replication_key self) as [key|].
    + destruct (bind _ _) eqn:E; [|discriminate].
      unfold bind in E.
      destruct (if truthy _ then _ else _); [|discriminate].
      injection E as <-. intros [= <-]. eauto.
    + intros [= <-]. eauto.
  - intros [= <-]. eauto.
Qed.

(** X1: the cursor is copied from the nested properties to the top level. *)
Lemma post_process_copies_cursor (self : stream) (row props : dict)
    (key : string) (v : value) :
  replication_key self = Some key -> key <> "" ->
  dict_get "properties" row = Some (VDict props) ->
  dict_get key props = Some v ->
  post_process self row = Ok (VDict (dict_set key v row))
  /\ dict_get key (dict_set key v row) = Some v.
Proof.
  intros Hk Hne Hp Hv. unfold post_process.
  assert (Ht : truthy (value_of_key (replication_key self)) = true)
    by (apply truthy_key; eauto).
  rewrite Ht, Hk, Hp.
  assert (Hprops : truthy (VDict props) = true)
    by (destruct props; [discriminate | reflexivity]).
  rewrite Hprops. simpl. rewrite Hv. simpl.
  split; [reflexivity | apply dict_get_set_same].
Qed.

(** X2: without properties (missing, null or empty) the cursor is null. *)
Lemma post_process_without_properties (self : stream) (row : dict)
    (key : string) :
  replication_key self = Some key -> key <> "" ->
  (dict_get "properties" row = None
   \/ dict_get "properties" row = Some VNone
   \/ dict_get "properties" row = Some (VDict [])) ->
  post_process self row = Ok (VDict (dict_set key VNone row))
  /\ dict_get key (dict_set key VNone row) = Some VNone.
Proof.
  intros Hk Hne Hp. unfold post_process.
  assert (Ht : truthy (value_of_key (replication_key self)) = true)
    by (apply truthy_key; eauto).
  rewrite Ht, Hk.
  split; [|apply dict_get_set_same].
  destruct Hp as [-> | [-> | ->]]; reflexivity.
Qed.

(** C4, where the code departs from it: when the properties map is present
    and not empty but lacks the cursor field, [post_process] raises
    [KeyError]; it returns no record with a null cursor. *)
Theorem post_process_missing_cursor_raises (self : stream) (row props : dict)
    (key : string) :
  replication_key self = Some key -> key <> "" ->
  dict_get "properties" row = Some (VDict props) ->
  props <> [] ->
  dict_get key props = None ->
  post_process self row = Raise KeyError.
Proof.
  intros Hk Hne Hp Hprops Hv. unfold post_process.
  assert (Ht : truthy (value_of_key (replication_key self)) = true)
    by (apply truthy_key; eauto).
  rewrite Ht, Hk, Hp.
  assert (Htp : truthy (VDict props) = true)
    by (destruct props; [contradiction | reflexivity]).
  rewrite Htp. simpl. rewrite Hv. reflexivity.
Qed.

Lemma post_process_missing_cursor_raises_witness :
  post_process Sample.contacts
    (Sample.row_with (VDict [ ("email", VStr "a@b.c") ]))
  = Raise KeyError.
Proof.
  apply (post_process_missing_cursor_raises Sample.contacts
           (Sample.row_with (VDict [ ("email", VStr "a@b.c") ]))
           [ ("email", VStr "a@b.c") ] "lastmodifieddate").
  - reflexivity.
  - discriminate.
  - reflexivity.
  - discriminate.
  - reflexivity.
Defined.

(** ** The search request body *)

Section PayloadProperties.
Context {rt : Runtime}.

(** What [body.update] leaves in the body, with or without [after]. *)
Lemma search_body_entries (self : stream) (epoch : string) (props b : dict) :
  b = [] \/ (exists t, b = [ ("after", t) ]) ->
  let body := dict_update b (search_entries self epoch props) in
  dict_get "after" body = dict_get "after" b
  /\ dict_get "filterGroups" body
     = Some (VList [ VDict [ ("filters",
         VList [ VDict [ ("propertyName", value_of_key (replication_key self));
                         ("operator", VStr "GTE");
                         ("value", VStr epoch) ] ]) ] ])
  /\ dict_get "sorts" body
     = Some (VList [ VDict [ ("propertyName", value_of_key (replication_key self));
                             ("direction", VStr "ASCENDING") ] ])
  /\ dict_get "limit" body = Some (VInt 100)
  /\ dict_get "properties" body = Some (VList (map VStr (dict_keys props)))
  /\ filter_value body = Some (VStr epoch).
Proof.
  intros [-> | [t ->]]; cbv zeta; repeat split; reflexivity.
Qed.

(** A successful call in search mode, taken apart: the body is the search
    entries over an empty body or over the token alone, and the stream
    keeps the date filter whose epoch went into the body. *)
Lemma payload_search_inv (self self' : stream) (ctx : context) (tok : value)
    (body : dict) (logs : list log_record) :
  select_mode self ctx = SEARCH ->
  prepare_request_payload self ctx tok = Ok (body, self', logs) ->
  exists b df props,
    (b = [] \/ (exists t, b = [ ("after", t) ]))
    /\ hs_properties self = Some props
    /\ body = dict_update b (search_entries self (epoch_ts df) props)
    /\ self' = set_date_filter self df.
Proof.
  intros Hm Hcall. unfold prepare_request_payload, bind in Hcall.
  rewrite (select_mode_search _ _ Hm) in Hcall.
  destruct (date_filter_in_force self ctx) as [d|]; [|discriminate].
  match type of Hcall with
  | match ?w with _ => _ end = _ => destruct w as [[[b df] lg]|] eqn:Hw
  end; [|discriminate].
  destruct (hs_properties self) as [props|]; [|discriminate].
  injection Hcall as <- <- <-.
  exists b, df, props.
  split; [|repeat split; reflexivity].
  destruct (truthy tok); [|injection Hw as <- _ _; now left].
  destruct (py_int tok) as [n|]; [|discriminate].
  destruct (n + 100 >=? 10000)%Z;
    [|injection Hw as <- _ _; right; now exists tok].
  destruct (next_date_filter ctx) as [m|]; [|discriminate].
  destruct (dt_eqb d m); [|injection Hw as <- _ _; now left].
  destruct (dt_add_seconds d 1); [|discriminate].
  injection Hw as <- _ _; now left.
Qed.

(** Every body a search-mode call produces holds a [GTE] filter on the
    replication cursor whose value is what [epoch_ts] writes for the date
    filter; an ascending sort on the cursor; [limit] 100; and the names of
    all resolved properties. *)
Theorem search_body_contents (self self' : stream) (ctx : context)
    (tok : value) (body : dict) (logs : list log_record) :
  select_mode self ctx = SEARCH ->
  prepare_request_payload self ctx tok = Ok (body, self', logs) ->
  exists df props,
    date_filter self' = Some df
    /\ hs_properties self = Some props
    /\ dict_get "filterGroups" body
       = Some (VList [ VDict [ ("filters",
           VList [ VDict [ ("propertyName", value_of_key (replication_key self));
                           ("operator", VStr "GTE");
                           ("value",
                             VStr (epoch_ts df)) ] ]) ] ])
    /\ dict_get "sorts" body
       = Some (VList [ VDict [ ("propertyName", value_of_key (replication_key self));
                               ("direction", VStr "ASCENDING") ] ])
    /\ dict_get "limit" body = Some (VInt 100)
    /\ dict_get "properties" body = Some (VList (map VStr (dict_keys props))).
Proof.
  intros Hm Hcall.
  destruct (payload_search_inv _ _ _ _ _ _ Hm Hcall)
    as (b & df & props & Hb & Hp & -> & ->).
  exists df, props.
  destruct (search_body_entries self (epoch_ts df) props b Hb)
    as (_ & Hf & Hs & Hl & Hpr & _).
  repeat split; assumption.
Qed.

(** The calls below start from the same reading of the code: search mode,
    a date filter in force, and the property catalogue in place. *)
Lemma payload_unfold (self : stream) (ctx : context) (tok : value)
    (d : datetime) (props : dict) :
  select_mode self ctx = SEARCH ->
  date_filter_in_force self ctx = Ok d ->
  hs_properties self = Some props ->
  prepare_request_payload self ctx tok
  = (' (body, df, logs) <-
       (if truthy tok then
          n <- py_int tok ;;
          if (n + 100 >=? 10000)%Z then
            next_df <- next_date_filter ctx ;;
            if dt_eqb d next_df then
              df' <- dt_add_seconds d 1 ;;
              Ok ([], df',
                  [ (WARNING, same_cursor_warning);
                    (WARNING, date_filter_warning df') ])
            else Ok ([], next_df, [ (WARNING, date_filter_warning next_df) ])
          else Ok (dict_set "after" tok [], d, [])
        else Ok ([], d, [])) ;;
     Ok (dict_update body (search_entries self (epoch_ts df) props),
         set_date_filter self df, logs)).
Proof.
  intros Hm Hd Hp. unfold prepare_request_payload.
  rewrite (select_mode_search _ _ Hm), Hd, Hp. simpl.
  destruct (truthy tok); [|reflexivity].
  destruct (py_int tok) as [n|]; [|reflexivity]. simpl.
  destruct (n + 100 >=? 10000)%Z; [|reflexivity].
  destruct (next_date_filter ctx) as [m|]; [|reflexivity]. simpl.
  destruct (dt_eqb d m); [|reflexivity].
  destruct (dt_add_seconds d 1); reflexivity.
Qed.

Lemma rollover_test (n : Z) : (n + 100 >= 10000)%Z -> (n + 100 >=? 10000)%Z = true.
Proof. intros H. apply Z.geb_le. lia. Qed.

Lemma safe_window_test (n : Z) : (n + 100 < 10000)%Z -> (n + 100 >=? 10000)%Z = false.
Proof.
  intros H. destruct (n + 100 >=? 10000)%Z eqn:E; [|reflexivity].
  apply Z.geb_le in E. lia.
Qed.

(** A rollover to a marker that differs from the date filter in force:
    the body has no [after], the date filter becomes the marker, and the
    filter value of the body is what [epoch_ts] writes for the marker. *)
Theorem rollover_to_marker (self : stream) (ctx : context) (tok : value)
    (n : Z) (d m : datetime) (props : dict) :
  select_mode self ctx = SEARCH ->
  py_int tok = Ok n -> (n + 100 >= 10000)%Z ->
  date_filter_in_force self ctx = Ok d ->
  next_date_filter ctx = Ok m ->
  dt_eqb d m = false ->
  hs_properties self = Some props ->
  exists body self' logs,
    prepare_request_payload self ctx tok = Ok (body, self', logs)
    /\ dict_get "after" body = None
    /\ date_filter self' = Some m
    /\ filter_value body
       = Some (VStr (epoch_ts m)).
Proof.
  intros Hm Hn Hge Hd Hnext Hneq Hp.
  rewrite (payload_unfold self ctx tok d props Hm Hd Hp).
  rewrite (py_int_truthy tok n Hn) by lia.
  rewrite Hn. simpl. rewrite (rollover_test n Hge), Hnext. simpl.
  rewrite Hneq. simpl.
  do 3 eexists. split; [reflexivity|].
  repeat split; reflexivity.
Qed.

(** C2: in search mode, when the rollover fires and the progress marker
    equals the date filter in force, the date filter moves forward by
    exactly one second, the body has no [after], and a warning is logged. *)
Theorem rollover_same_cursor (self : stream) (ctx : context) (tok : value)
    (n : Z) (d m : datetime) (props : dict) :
  select_mode self ctx = SEARCH ->
  py_int tok = Ok n -> (n + 100 >= 10000)%Z ->
  date_filter_in_force self ctx = Ok d ->
  next_date_filter ctx = Ok m ->
  dt_eqb d m = true ->
  (MIN_WALL_US <= wall_us d)%Z -> (wall_us d + 1000000 <= MAX_WALL_US)%Z ->
  hs_properties self = Some props ->
  exists body self' logs,
    prepare_request_payload self ctx tok = Ok (body, self', logs)
    /\ date_filter self'
       = Some (mk_datetime (wall_us d + 1000000) (utcoffset d))
    /\ dict_get "after" body = None
    /\ In (WARNING, same_cursor_warning) logs.
Proof.
  intros Hm Hn Hge Hd Hnext Heq Hlo Hhi Hp.
  rewrite (payload_unfold self ctx tok d props Hm Hd Hp).
  rewrite (py_int_truthy tok n Hn) by lia.
  rewrite Hn. simpl. rewrite (rollover_test n Hge), Hnext. simpl.
  rewrite Heq, (dt_add_seconds_ok d Hlo Hhi). simpl.
  do 3 eexists. split; [reflexivity|].
  repeat split; try reflexivity. now left.
Qed.

(** C3: in search mode, with a token [t] such that [int(t) + 100 < 10000],
    the body carries [t] itself as [after] and the date filter is the one
    that was in force; a stream that already had its date filter is left
    as it was, and nothing is logged. *)
Theorem safe_window_keeps_token (self : stream) (ctx : context) (tok : value)
    (n : Z) (d : datetime) (props : dict) :
  select_mode self ctx = SEARCH ->
  truthy tok = true ->
  py_int tok = Ok n -> (n + 100 < 10000)%Z ->
  date_filter_in_force self ctx = Ok d ->
  hs_properties self = Some props ->
  exists body self',
    prepare_request_payload self ctx tok = Ok (body, self', [])
    /\ dict_get "after" body = Some tok
    /\ date_filter self' = Some d
    /\ (date_filter self = Some d -> self' = self).
Proof.
  intros Hm Ht Hn Hlt Hd Hp.
  rewrite (payload_unfold self ctx tok d props Hm Hd Hp).
  rewrite Ht, Hn. simpl. rewrite (safe_window_test n Hlt). simpl.
  do 2 eexists. split; [reflexivity|].
  repeat split; try reflexivity.
  apply set_date_filter_same.
Qed.

End PayloadProperties.

(** ** The date filter along a run *)

Section RunProperties.
Context {rt : Runtime}.

Lemma date_filter_in_force_set (self : stream) (ctx : context) (d : datetime) :
  date_filter self = Some d -> date_filter_in_force self ctx = Ok d.
Proof. unfold date_filter_in_force. now intros ->. Qed.

(** In LIST mode the call builds an empty body and touches nothing. *)
Lemma payload_list_mode (self : stream) (ctx : context) (tok : value) :
  select_mode self ctx = LIST ->
  prepare_request_payload self ctx tok = Ok ([], self, []).
Proof.
  intros Hm. unfold prepare_request_payload.
  now rewrite (select_mode_list _ _ Hm).
Qed.

(** One call: the date filter does not move back when the marker read by
    a rollover is not behind it. *)
Lemma payload_step_monotone (self self' : stream) (ctx : context)
    (tok : value) (body : dict) (logs : list log_record) (d : datetime) :
  marker_not_behind self ctx tok ->
  prepare_request_payload self ctx tok = Ok (body, self', logs) ->
  date_filter self = Some d ->
  exists d', date_filter self' = Some d' /\ dt_le d d'.
Proof.
  intros Hguard Hcall Hd.
  destruct (select_mode self ctx) eqn:Hm.
  - rewrite (payload_list_mode _ _ _ Hm) in Hcall.
    injection Hcall as _ <- _. exists d. split; [assumption | apply dt_le_refl].
  - pose proof (date_filter_in_force_set self ctx d Hd) as Hin.
    unfold marker_not_behind, rollover_fires in Hguard.
    unfold prepare_request_payload, bind in Hcall.
    rewrite (select_mode_search _ _ Hm), Hin in Hcall.
    destruct (truthy tok) eqn:Ht.
    + destruct (py_int tok) as [n|] eqn:Hn; [|discriminate].
      destruct (n + 100 >=? 10000)%Z eqn:Hge.
      * destruct (next_date_filter ctx) as [m|] eqn:Hnext; [|discriminate].
        destruct (dt_eqb d m) eqn:Heq.
        -- destruct (dt_add_seconds d 1) as [d1|] eqn:Hadd; [|discriminate].
           destruct (hs_properties self); [|discriminate].
           injection Hcall as _ <- _. exists d1.
           split; [reflexivity | now apply dt_add_seconds_le].
        -- destruct (hs_properties self); [|discriminate].
           injection Hcall as _ <- _. exists m. split; [reflexivity|].
           apply Hguard; trivial.
           split; [reflexivity|]. exists n. split; [reflexivity|].
           apply Z.geb_le in Hge. lia.
      * destruct (hs_properties self); [|discriminate].
        injection Hcall as _ <- _. exists d.
        split; [reflexivity | apply dt_le_refl].
    + destruct (hs_properties self); [|discriminate].
      injection Hcall as _ <- _. exists d.
      split; [reflexivity | apply dt_le_refl].
Qed.

(** C9, as the code has it: along any sequence of calls in which every
    rollover reads a progress marker that is not earlier than the date
    filter in force, the date filter after each call is greater than or
    equal to the date filter before that call. *)
Theorem guarded_run_date_filter_monotone (self : stream)
    (calls : list (context * value)) (trace : list stream) :
  guarded_run self calls trace ->
  forall d, date_filter self = Some d -> date_filters_ascend d trace.
Proof.
  induction 1 as [self | self ctx tok body self1 logs rest trace Hg Hcall _ IH].
  - intros d Hd. exact I.
  - intros d Hd.
    destruct (payload_step_monotone _ _ _ _ _ _ _ Hg Hcall Hd) as (d1 & Hd1 & Hle1).
    exists d1. repeat split; try assumption. now apply IH.
Qed.

(** Over the whole run the date filter has not moved back. *)
Lemma guarded_run_last_date_filter (self : stream)
    (calls : list (context * value)) (trace : list stream) :
  guarded_run self calls trace ->
  forall d, date_filter self = Some d ->
  exists d', date_filter (last trace self) = Some d' /\ dt_le d d'.
Proof.
  induction 1 as [self | self ctx tok body self1 logs rest trace Hg Hcall Hrun IH].
  - intros d Hd. exists d. split; [assumption | apply dt_le_refl].
  - intros d Hd.
    destruct (payload_step_monotone _ _ _ _ _ _ _ Hg Hcall Hd) as (d1 & Hd1 & Hle1).
    destruct (IH d1 Hd1) as (d2 & Hd2 & Hle2).
    exists d2. split; [|eapply dt_le_trans; eassumption].
    rewrite <- Hd2. destruct trace as [|s trace']; [reflexivity|].
    simpl. clear. generalize s. induction trace' as [|s' t IHt]; intros s0.
    + reflexivity.
    + simpl. apply IHt.
Qed.

End RunProperties.

(** ** The theorems at sample inputs *)

Lemma search_body_contents_witness :
  exists df props,
    date_filter (Sample.contacts_at (Sample.june 1)) = Some df
    /\ hs_properties Sample.contacts = Some props
    /\ dict_get "filterGroups" (Sample.search_body "1685577600000")
       = Some (VList [ VDict [ ("filters",
           VList [ VDict [ ("propertyName",
                             value_of_key (replication_key Sample.contacts));
                           ("operator", VStr "GTE");
                           ("value", VStr (@epoch_ts Iso8601.runtime df)) ] ]) ] ])
    /\ dict_get "sorts" (Sample.search_body "1685577600000")
       = Some (VList [ VDict [ ("propertyName",
                                 value_of_key (replication_key Sample.contacts));
                               ("direction", VStr "ASCENDING") ] ])
    /\ dict_get "limit" (Sample.search_body "1685577600000") = Some (VInt 100)
    /\ dict_get "properties" (Sample.search_body "1685577600000")
       = Some (VList (map VStr (dict_keys props))).
Proof.
  apply (@search_body_contents Iso8601.runtime Sample.contacts
           (Sample.contacts_at (Sample.june 1))
           (Sample.state_with "2023-06-01T00:00:00Z" "2023-06-01T00:00:00Z")
           VNone (Sample.search_body "1685577600000") []); reflexivity.
Defined.

Lemma rollover_to_marker_witness :
  exists body self' logs,
    @prepare_request_payload Iso8601.runtime
      (Sample.contacts_at (Sample.june 1))
      (Sample.state_with "2023-06-01T00:00:00Z" "2023-06-02T00:00:00Z")
      (VStr "9905") = Ok (body, self', logs)
    /\ dict_get "after" body = None
    /\ date_filter self' = Some (Sample.june 2)
    /\ filter_value body
       = Some (VStr (@epoch_ts Iso8601.runtime (Sample.june 2))).
Proof.
  apply (@rollover_to_marker Iso8601.runtime _ _ (VStr "9905") 9905
           (Sample.june 1) (Sample.june 2) Sample.contacts_properties);
    try reflexivity.
  lia.
Defined.

Lemma rollover_same_cursor_witness :
  exists body self' logs,
    @prepare_request_payload Iso8601.runtime
      (Sample.contacts_at (Sample.june 1))
      (Sample.state_with "2023-06-01T00:00:00Z" "2023-06-01T02:00:00+02:00")
      (VStr "9900") = Ok (body, self', logs)
    /\ date_filter self'
       = Some (mk_datetime (wall_us (Sample.june 1) + 1000000)
                 (utcoffset (Sample.june 1)))
    /\ dict_get "after" body = None
    /\ In (WARNING, same_cursor_warning) logs.
Proof.
  apply (@rollover_same_cursor Iso8601.runtime _ _ (VStr "9900") 9900
           (Sample.june 1) (Sample.june 1) Sample.contacts_properties);
    try reflexivity.
  - lia.
  - vm_compute. discriminate.
  - vm_compute. discriminate.
Defined.

Lemma safe_window_keeps_token_witness :
  exists body self',
    @prepare_request_payload Iso8601.runtime
      (Sample.contacts_at (Sample.june 1))
      (Sample.state_with "2023-06-01T00:00:00Z" "2023-06-01T08:00:00Z")
      (VStr "200") = Ok (body, self', [])
    /\ dict_get "after" body = Some (VStr "200")
    /\ date_filter self' = Some (Sample.june 1)
    /\ (date_filter (Sample.contacts_at (Sample.june 1)) = Some (Sample.june 1)
        -> self' = Sample.contacts_at (Sample.june 1)).
Proof.
  apply (@safe_window_keeps_token Iso8601.runtime _ _ (VStr "200") 200
           (Sample.june 1) Sample.contacts_properties);
    reflexivity.
Defined.

(** C9 as stated fails: the date filter is 2023-06-02, the rollover fires
    and the caller's progress marker is 2023-06-01; the call succeeds and
    leaves the date filter at 2023-06-01, one day back. *)
Lemma date_filter_can_decrease :
  @run Iso8601.runtime (Sample.contacts_at (Sample.june 2))
    [ (Sample.state_with "2023-06-01T00:00:00Z" "2023-06-01T00:00:00Z",
       VStr "9900") ]
    [ Sample.contacts_at (Sample.june 1) ]
  /\ date_filter (Sample.contacts_at (Sample.june 2)) = Some (Sample.june 2)
  /\ date_filter (Sample.contacts_at (Sample.june 1)) = Some (Sample.june 1)
  /\ ~ dt_le (Sample.june 2) (Sample.june 1).
Proof.
  split; [|split; [|split]].
  - eapply run_call; [reflexivity | apply run_done].
  - reflexivity.
  - reflexivity.
  - unfold dt_le. simpl. lia.
Qed.

Lemma guarded_run_date_filter_monotone_witness :
  date_filters_ascend (Sample.june 1)
    [ Sample.contacts_at (Sample.june 1);
      Sample.contacts_at (mk_datetime 1685606400000000 (Some 0%Z)) ].
Proof.
  apply (@guarded_run_date_filter_monotone Iso8601.runtime
           (Sample.contacts_at (Sample.june 1))
           [ (Sample.state_with "2023-06-01T00:00:00Z" "2023-06-01T00:00:00Z",
              VStr "200");
             (Sample.state_with "2023-06-01T00:00:00Z" "2023-06-01T08:00:00Z",
              VStr "9900") ]).
  - eapply guarded_call.
    + intros (_ & n & Hn & Hge). vm_compute in Hn.
      injection Hn as <-. lia.
    + reflexivity.
    + eapply guarded_call.
      * intros _ d m Hd Hm. vm_compute in Hd, Hm.
        injection Hd as <-. injection Hm as <-.
        unfold dt_le. simpl. lia.
      * reflexivity.
      * apply guarded_done.
  - reflexivity.
Defined.

(** * Further properties of the client *)

(** ** Running the catalogue and the schema *)

Example catalogue_of_metadata :
  DynamicHubspotStream._get_available_properties Sample.metadata
  = Some (Ok [ ("email", VStr "string");
               ("lastmodifieddate", VStr "datetime");
               ("hs_object_id", VStr "number") ]).
Proof. reflexivity. Qed.

Example catalogue_without_results :
  DynamicHubspotStream._get_available_properties (VDict []) = Some (Ok []).
Proof. reflexivity. Qed.

Example catalogue_results_null :
  DynamicHubspotStream._get_available_properties
    (VDict [ ("results", VNone) ]) = Some (Raise TypeError).
Proof. reflexivity. Qed.

Example schema_of_contacts :
  schema Sample.contacts_unread (Ok Sample.contacts_properties)
  = Ok ([ ("id", StringType);
          ("properties",
            ObjectType [ ("email", StringType);
                         ("lastmodifieddate", StringType);
                         ("hs_object_id", StringType) ]);
          ("createdAt", DateTimeType);
          ("updatedAt", DateTimeType);
          ("archived", BooleanType);
          ("lastmodifieddate", DateTimeType) ],
        Sample.contacts).
Proof. reflexivity. Qed.

Example schema_fetch_failed :
  schema Sample.contacts_unread (Raise RuntimeError) = Raise RuntimeError.
Proof. reflexivity. Qed.

(** ** Dictionaries *)

Lemma dict_set_twice (k : string) (v : value) (d : dict) :
  dict_set k v (dict_set k v d) = dict_set k v d.
Proof.
  induction d as [|[k' v'] rest IH]; simpl.
  - now rewrite String.eqb_refl.
  - destruct (k =? k')%string eqn:E; simpl.
    + now rewrite String.eqb_refl.
    + now rewrite E, IH.
Qed.

Lemma dict_set_keys_in (k : string) (v : value) (d : dict) :
  In k (dict_keys d) -> dict_keys (dict_set k v d) = dict_keys d.
Proof.
  unfold dict_keys.
  induction d as [|[k' v'] rest IH]; simpl; [contradiction|].
  intros Hin. destruct (String.eqb_spec k k') as [->|Hne]; simpl.
  - reflexivity.
  - f_equal. apply IH. destruct Hin as [Heq|Hin]; [congruence | assumption].
Qed.

Lemma dict_set_keys_new (k : string) (v : value) (d : dict) :
  ~ In k (dict_keys d) -> dict_keys (dict_set k v d) = (dict_keys d ++ [k])%list.
Proof.
  unfold dict_keys.
  induction d as [|[k' v'] rest IH]; simpl; [reflexivity|].
  intros Hnin. destruct (String.eqb_spec k k') as [->|Hne]; simpl.
  - exfalso. apply Hnin. now left.
  - f_equal. apply IH. intros Hin. apply Hnin. now right.
Qed.

Lemma dict_get_in_keys (k : string) (d : dict) :
  In k (dict_keys d) <-> dict_get k d <> None.
Proof.
  unfold dict_keys.
  induction d as [|[k' v'] rest IH]; simpl.
  - split; [contradiction | congruence].
  - destruct (String.eqb_spec k k') as [->|Hne].
    + split; [discriminate | now left].
    + rewrite <- IH. split; [intros [Heq|Hin]; [congruence|assumption] | now right].
Qed.

(** Assignment keeps the keys of a dict distinct. *)
Lemma dict_set_nodup (k : string) (v : value) (d : dict) :
  NoDup (dict_keys d) -> NoDup (dict_keys (dict_set k v d)).
Proof.
  intros Hnd. destruct (in_dec string_dec k (dict_keys d)) as [Hin|Hnin].
  - now rewrite dict_set_keys_in.
  - rewrite dict_set_keys_new by assumption.
    apply NoDup_app; [assumption | constructor; [intros [] | constructor] |].
    intros x Hx [<-|[]]. contradiction.
Qed.

(** ** Post-processing, continued *)

(** What a successful [post_process] returns, in terms of the row. *)
Lemma post_process_result (self : stream) (row : dict) (r : value) :
  post_process self row = Ok r ->
  r = VDict row
  \/ exists key val, replication_key self = Some key
       /\ r = VDict (dict_set key val row).
Proof.
  unfold post_process.
  destruct (truthy (value_of_key (replication_key self)));
    [|intros [= <-]; now left].
  destruct (replication_key self) as [key|]; [|intros [= <-]; now left].
  unfold bind.
  destruct (if truthy _ then _ else _) as [val|]; [|discriminate].
  intros [= <-]. right. now exists key, val.
Qed.

(** X4: [post_process] writes one field only: every field of the row other
    than the replication key comes back as it was. *)
Theorem post_process_frame (self : stream) (row row' : dict) (k : string) :
  post_process self row = Ok (VDict row') ->
  replication_key self <> Some k ->
  dict_get k row' = dict_get k row.
Proof.
  intros Hpp Hk.
  destruct (post_process_result _ _ _ Hpp) as [[= ->] | (key & val & Hkey & [= ->])].
  - reflexivity.
  - apply dict_get_set_other. intros ->. now apply Hk.
Qed.

Lemma post_process_frame_witness :
  dict_get "id"
    [ ("id", VStr "51");
      ("properties", VDict [ ("lastmodifieddate", VStr "2023-01-01T00:00:00Z") ]);
      ("archived", VBool false);
      ("lastmodifieddate", VStr "2023-01-01T00:00:00Z") ]
  = dict_get "id"
      (Sample.row_with
         (VDict [ ("lastmodifieddate", VStr "2023-01-01T00:00:00Z") ])).
Proof.
  apply (post_process_frame Sample.contacts).
  - reflexivity.
  - discriminate.
Defined.

(** X5: processing a processed record again changes nothing, as long as the
    replication key is not the field [properties] itself. *)
Theorem post_process_idempotent (self : stream) (row row' : dict) :
  replication_key self <> Some "properties" ->
  post_process self row = Ok (VDict row') ->
  post_process self row' = Ok (VDict row').
Proof.
  intros Hk Hpp.
  pose proof Hpp as Hpp0. unfold post_process in Hpp |- *.
  destruct (truthy (value_of_key (replication_key self))) eqn:Ht;
    [|injection Hpp as <-; reflexivity].
  destruct (replication_key self) as [key|] eqn:Hkey;
    [|injection Hpp as <-; reflexivity].
  assert (Hne : "properties" <> key) by (intros <-; now apply Hk).
  unfold bind in Hpp.
  destruct (if truthy _ then _ else _) as [val|] eqn:Hval; [|discriminate].
  injection Hpp as <-.
  rewrite (dict_get_set_other "properties" key val row Hne), Hval. simpl.
  now rewrite dict_set_twice.
Qed.

Lemma post_process_idempotent_witness :
  post_process Sample.contacts
    [ ("id", VStr "51");
      ("properties", VDict [ ("lastmodifieddate", VStr "2023-01-01T00:00:00Z") ]);
      ("archived", VBool false);
      ("lastmodifieddate", VStr "2023-01-01T00:00:00Z") ]
  = Ok (VDict
    [ ("id", VStr "51");
      ("properties", VDict [ ("lastmodifieddate", VStr "2023-01-01T00:00:00Z") ]);
      ("archived", VBool false);
      ("lastmodifieddate", VStr "2023-01-01T00:00:00Z") ]).
Proof.
  apply (post_process_idempotent Sample.contacts
           (Sample.row_with
              (VDict [ ("lastmodifieddate", VStr "2023-01-01T00:00:00Z") ]))).
  - discriminate.
  - reflexivity.
Defined.

(** With [properties] as the replication key the second pass fails: the
    first one has put the cursor value where the properties were. *)
Lemma post_process_properties_key_twice :
  let self := mk_stream "deals" "INCREMENTAL" (Some "properties") None
                None None VNone "GET" in
  let row := [ ("properties", VDict [ ("properties", VStr "x") ]) ] in
  post_process self row = Ok (VDict [ ("properties", VStr "x") ])
  /\ post_process self [ ("properties", VStr "x") ] = Raise TypeError.
Proof. split; reflexivity. Qed.

(** X6: properties that are neither empty nor an object cannot be subscripted
    with the replication key: [TypeError]. *)
Theorem post_process_properties_not_object (self : stream) (row : dict)
    (key : string) (p : value) :
  replication_key self = Some key -> key <> "" ->
  dict_get "properties" row = Some p ->
  truthy p = true ->
  (forall d, p <> VDict d) ->
  post_process self row = Raise TypeError.
Proof.
  intros Hk Hne Hp Ht Hnd. unfold post_process.
  assert (Htk : truthy (value_of_key (replication_key self)) = true)
    by (apply truthy_key; eauto).
  rewrite Htk, Hk, Hp, Ht.
  destruct p; try reflexivity. exfalso. now apply (Hnd kvs).
Qed.

Lemma post_process_properties_not_object_witness :
  post_process Sample.contacts (Sample.row_with (VStr "n/a")) = Raise TypeError.
Proof.
  apply (post_process_properties_not_object Sample.contacts
           (Sample.row_with (VStr "n/a")) "lastmodifieddate" (VStr "n/a"));
    try reflexivity; discriminate.
Defined.

Lemma post_process_keeps_record_witness :
  exists row',
    VDict (dict_set "lastmodifieddate" VNone (Sample.row_with VNone))
    = VDict row'.
Proof.
  apply (post_process_keeps_record Sample.contacts (Sample.row_with VNone)).
  reflexivity.
Defined.

Lemma post_process_copies_cursor_witness :
  post_process Sample.contacts
    (Sample.row_with (VDict [ ("lastmodifieddate", VStr "2023-01-01T00:00:00Z") ]))
  = Ok (VDict (dict_set "lastmodifieddate" (VStr "2023-01-01T00:00:00Z")
                 (Sample.row_with
                    (VDict [ ("lastmodifieddate",
                              VStr "2023-01-01T00:00:00Z") ]))))
  /\ dict_get "lastmodifieddate"
       (dict_set "lastmodifieddate" (VStr "2023-01-01T00:00:00Z")
          (Sample.row_with
             (VDict [ ("lastmodifieddate", VStr "2023-01-01T00:00:00Z") ])))
     = Some (VStr "2023-01-01T00:00:00Z").
Proof.
  apply (post_process_copies_cursor Sample.contacts _
           [ ("lastmodifieddate", VStr "2023-01-01T00:00:00Z") ]);
    try reflexivity.
  discriminate.
Defined.

Lemma post_process_without_properties_witness :
  post_process Sample.contacts (Sample.row_with (VDict []))
  = Ok (VDict (dict_set "lastmodifieddate" VNone (Sample.row_with (VDict []))))
  /\ dict_get "lastmodifieddate"
       (dict_set "lastmodifieddate" VNone (Sample.row_with (VDict [])))
     = Some VNone.
Proof.
  apply (post_process_without_properties Sample.contacts).
  - reflexivity.
  - discriminate.
  - right. right. reflexivity.
Defined.

(** ** Next-page token, continued *)

(** X7: outside the envelope shape the chained [get] calls fail: the response
    is not an object, [paging] is neither null nor an object, or [next] is
    not an object. *)
Theorem next_page_token_malformed (resp prev : value) :
  well_formed_envelope resp = false ->
  HubspotStream.get_next_page_token resp prev = Raise AttributeError.
Proof.
  unfold HubspotStream.get_next_page_token.
  destruct resp as [| | | | |d]; simpl; try reflexivity.
  destruct (dict_get "paging" d) as [[| | | | |p]|]; simpl;
    try reflexivity; try discriminate.
  destruct (dict_get "next" p) as [[| | | | |n]|]; simpl;
    try reflexivity; discriminate.
Qed.

Lemma next_page_token_malformed_witness :
  HubspotStream.get_next_page_token (VList []) VNone = Raise AttributeError.
Proof.
  apply next_page_token_malformed. reflexivity.
Defined.

(** On the envelope the token is the value at [paging.next.after], or
    [None]. *)
Lemma next_page_token_value (resp prev : value) :
  well_formed_envelope resp = true ->
  HubspotStream.get_next_page_token resp prev
  = Ok (match json_path ["paging"; "next"; "after"] resp with
        | Some v => v
        | None => VNone
        end).
Proof.
  intros Hwf.
  destruct (well_formed_envelope_cases resp Hwf) as (d & -> & Hcases).
  unfold HubspotStream.get_next_page_token. simpl.
  destruct Hcases as [Hp | [Hp | (p & Hp & Hn)]]; rewrite Hp; simpl;
    try reflexivity.
  destruct Hn as [Hn | (n & Hn)]; rewrite Hn; simpl; try reflexivity.
  destruct (dict_get "after" n); reflexivity.
Qed.

(** ** URL parameters, continued *)

(** X8: with the property catalogue in place, [DynamicHubspotStream] sends
    the parent's parameters unchanged and adds [properties], the names in
    catalogue order joined by commas, exactly when the catalogue is not
    empty. *)
Theorem dynamic_url_params (self : stream) (ctx : context) (tok : value)
    (props : dict) :
  hs_properties self = Some props ->
  exists params,
    DynamicHubspotStream.get_url_params self ctx tok = Ok params
    /\ dict_get "properties" params
       = match props with
         | [] => None
         | _ :: _ => Some (VStr (String.concat "," (dict_keys props)))
         end
    /\ forall k, k <> "properties" ->
         dict_get k params
         = dict_get k (HubspotStream.get_url_params self ctx tok).
Proof.
  intros Hp. unfold DynamicHubspotStream.get_url_params. rewrite Hp.
  destruct props as [|kv rest]; simpl truthy; cbv iota.
  - eexists. split; [reflexivity|]. split; [|reflexivity].
    rewrite base_url_params_shape.
    destruct (truthy tok), (truthy (value_of_key (replication_key self)));
      reflexivity.
  - eexists. split; [reflexivity|]. split.
    + apply dict_get_set_same.
    + intros k Hk. now apply dict_get_set_other.
Qed.

Lemma dynamic_url_params_witness :
  exists params,
    DynamicHubspotStream.get_url_params Sample.contacts Sample.fresh VNone
    = Ok params
    /\ dict_get "properties" params
       = Some (VStr (String.concat ","
                       (dict_keys Sample.contacts_properties)))
    /\ forall k, k <> "properties" ->
         dict_get k params
         = dict_get k (HubspotStream.get_url_params Sample.contacts
                         Sample.fresh VNone).
Proof.
  apply (dynamic_url_params Sample.contacts Sample.fresh VNone
           Sample.contacts_properties).
  reflexivity.
Defined.

(** Before [schema] has stored the catalogue, a LIST-mode request cannot
    be parameterised: [AttributeError]. *)
Theorem list_mode_needs_catalogue (self : stream) (ctx : context)
    (tok : value) :
  select_mode self ctx = LIST ->
  hs_properties self = None ->
  get_url_params self ctx tok = Raise AttributeError.
Proof.
  intros Hm Hp. unfold get_url_params, DynamicHubspotStream.get_url_params.
  now rewrite (select_mode_list _ _ Hm), Hp.
Qed.

(** X9: LIST pagination end to end: the token read from one response is the
    [after] parameter of the next request. *)
Theorem list_token_round_trip (self : stream) (ctx : context)
    (resp prev v : value) (props : dict) :
  well_formed_envelope resp = true ->
  json_path ["paging"; "next"; "after"] resp = Some v ->
  truthy v = true ->
  select_mode self ctx = LIST ->
  hs_properties self = Some props ->
  exists tok params,
    HubspotStream.get_next_page_token resp prev = Ok tok
    /\ get_url_params self ctx tok = Ok params
    /\ dict_get "after" params = Some v.
Proof.
  intros Hwf Hv Ht Hm Hp.
  exists v. rewrite (next_page_token_value resp prev Hwf), Hv.
  unfold get_url_params, DynamicHubspotStream.get_url_params.
  rewrite (select_mode_list _ _ Hm), Hp.
  assert (Hafter : dict_get "after" (HubspotStream.get_url_params self ctx v)
                   = Some v).
  { rewrite base_url_params_shape, Ht.
    destruct (truthy (value_of_key (replication_key self))); reflexivity. }
  destruct (truthy (VDict props)); eexists; split; try reflexivity;
    split; try reflexivity; trivial.
  rewrite dict_get_set_other by discriminate. exact Hafter.
Qed.

Lemma list_token_round_trip_witness :
  exists tok params,
    HubspotStream.get_next_page_token (Sample.page (VStr "100")) VNone = Ok tok
    /\ get_url_params Sample.contacts Sample.fresh tok = Ok params
    /\ dict_get "after" params = Some (VStr "100").
Proof.
  apply (list_token_round_trip Sample.contacts Sample.fresh
           (Sample.page (VStr "100")) VNone (VStr "100")
           Sample.contacts_properties); reflexivity.
Defined.

(** ** The search request body, continued *)

Section PayloadFurther.
Context {rt : Runtime}.

(** A successful call returns the stream it was given, with at most the
    date filter replaced. *)
Lemma payload_stream_result (self self' : stream) (ctx : context)
    (tok : value) (body : dict) (logs : list log_record) :
  prepare_request_payload self ctx tok = Ok (body, self', logs) ->
  self' = self \/ exists d, self' = set_date_filter self d.
Proof.
  intros Hcall. destruct (select_mode self ctx) eqn:Hm.
  - unfold prepare_request_payload in Hcall.
    rewrite (select_mode_list _ _ Hm) in Hcall.
    injection Hcall as _ <- _. now left.
  - destruct (payload_search_inv _ _ _ _ _ _ Hm Hcall)
      as (b & df & props & _ & _ & _ & ->).
    right. now exists df.
Qed.

(** X12: the only attribute [prepare_request_payload] ever writes is the date
    filter; in particular the mode the stream selects for any context is
    the same after the call as before. *)
Theorem payload_keeps_attributes (self self' : stream) (ctx : context)
    (tok : value) (body : dict) (logs : list log_record) :
  prepare_request_payload self ctx tok = Ok (body, self', logs) ->
  name self' = name self
  /\ replication_method self' = replication_method self
  /\ replication_key self' = replication_key self
  /\ incremental_path self' = incremental_path self
  /\ hs_properties self' = hs_properties self
  /\ path self' = path self
  /\ rest_method self' = rest_method self
  /\ forall ctx', select_mode self' ctx' = select_mode self ctx'.
Proof.
  intros Hcall.
  destruct (payload_stream_result _ _ _ _ _ _ Hcall) as [-> | [d ->]];
    repeat split; reflexivity.
Qed.

(** X13: no request carries an offset at the cap: when the body has an [after],
    it is the token the call was given and [int(after) + 100 < 10000]. *)
Theorem payload_after_below_cap (self self' : stream) (ctx : context)
    (tok t : value) (body : dict) (logs : list log_record) :
  prepare_request_payload self ctx tok = Ok (body, self', logs) ->
  dict_get "after" body = Some t ->
  t = tok /\ exists n, py_int t = Ok n /\ (n + 100 < 10000)%Z.
Proof.
  intros Hcall Hafter. unfold prepare_request_payload, bind in Hcall.
  destruct (truthy (_is_incremental_search self ctx));
    [|injection Hcall as <- _ _; discriminate].
  destruct (date_filter_in_force self ctx) as [d|]; [|discriminate].
  match type of Hcall with
  | match ?w with _ => _ end = _ => destruct w as [[[b df] lg]|] eqn:Hw
  end; [|discriminate].
  destruct (hs_properties self) as [props|]; [|discriminate].
  injection Hcall as <- _ _.
  destruct (truthy tok);
    [|injection Hw as <- _ _; cbn in Hafter; discriminate].
  destruct (py_int tok) as [n|] eqn:Hn; [|discriminate].
  destruct (n + 100 >=? 10000)%Z eqn:Hge.
  - destruct (next_date_filter ctx) as [m|]; [|discriminate].
    destruct (dt_eqb d m).
    + destruct (dt_add_seconds d 1); [|discriminate].
      injection Hw as <- _ _. cbn in Hafter. discriminate.
    + injection Hw as <- _ _. cbn in Hafter. discriminate.
  - injection Hw as <- _ _. cbn in Hafter. injection Hafter as <-.
    split; [reflexivity|]. exists n. split; [assumption|].
    destruct (Z.geb_spec (n + 100) 10000); [discriminate | lia].
Qed.

(** X14: the first request of a search run: the date filter is read from the
    starting replication value, the body has no [after], its filter value
    is that date filter, and nothing is logged. *)
Theorem payload_first_page (self : stream) (ctx : context) (tok : value)
    (d : datetime) (props : dict) :
  select_mode self ctx = SEARCH ->
  date_filter self = None ->
  truthy tok = false ->
  datetime_fromisoformat (get_starting_replication_key_value ctx) = Ok d ->
  hs_properties self = Some props ->
  exists body,
    prepare_request_payload self ctx tok = Ok (body, set_date_filter self d, [])
    /\ dict_get "after" body = None
    /\ filter_value body = Some (VStr (epoch_ts d)).
Proof.
  intros Hm Hnone Ht Hd Hp.
  assert (Hin : date_filter_in_force self ctx = Ok d)
    by (unfold date_filter_in_force; now rewrite Hnone).
  rewrite (payload_unfold self ctx tok d props Hm Hin Hp), Ht. simpl.
  eexists. repeat split; reflexivity.
Qed.

(** X15: in search mode a page token that [int] rejects makes the call fail
    with the exception of [int]. *)
Theorem payload_token_not_a_number (self : stream) (ctx : context)
    (tok : value) (d : datetime) (e : exn) :
  select_mode self ctx = SEARCH ->
  date_filter_in_force self ctx = Ok d ->
  truthy tok = true ->
  py_int tok = Raise e ->
  prepare_request_payload self ctx tok = Raise e.
Proof.
  intros Hm Hd Ht He. unfold prepare_request_payload.
  rewrite (select_mode_search _ _ Hm), Hd. simpl.
  now rewrite Ht, He.
Qed.

(** X16: a rollover needs the progress markers: when the context state has
    none, [.get("progress_markers")] is [None] and the next [.get] fails
    with [AttributeError]. *)
Theorem payload_rollover_without_markers (self : stream) (ctx : context)
    (tok : value) (n : Z) (d : datetime) (st : dict) :
  select_mode self ctx = SEARCH ->
  date_filter_in_force self ctx = Ok d ->
  py_int tok = Ok n -> (n + 100 >= 10000)%Z ->
  get_context_state ctx = VDict st ->
  dict_get "progress_markers" st = None ->
  prepare_request_payload self ctx tok = Raise AttributeError.
Proof.
  intros Hm Hd Hn Hge Hst Hpm. unfold prepare_request_payload.
  rewrite (select_mode_search _ _ Hm), Hd. simpl.
  rewrite (py_int_truthy tok n Hn) by lia.
  rewrite Hn. simpl. rewrite (rollover_test n Hge).
  unfold next_date_filter. rewrite Hst. simpl. now rewrite Hpm.
Qed.

(** X17: a successful call logs warnings exactly when it is in search mode
    and the rollover fires, and the last warning then names the date
    filter the call leaves behind. *)
Theorem payload_logs_on_rollover (self self' : stream) (ctx : context)
    (tok : value) (body : dict) (logs : list log_record) :
  prepare_request_payload self ctx tok = Ok (body, self', logs) ->
  (logs <> [] <-> select_mode self ctx = SEARCH /\ rollover_fires tok)
  /\ (logs <> [] ->
      exists d', date_filter self' = Some d'
        /\ last logs (WARNING, "") = (WARNING, date_filter_warning d')).
Proof.
  intros Hcall.
  destruct (select_mode self ctx) eqn:Hm.
  - rewrite (payload_list_mode _ _ _ Hm) in Hcall.
    injection Hcall as _ _ <-.
    split; [split|]; [intros H; now elim H | intros [H _]; discriminate
                     | intros H; now elim H].
  - unfold prepare_request_payload, bind in Hcall.
    rewrite (select_mode_search _ _ Hm) in Hcall.
    destruct (date_filter_in_force self ctx) as [d|]; [|discriminate].
    match type of Hcall with
    | match ?w with _ => _ end = _ => destruct w as [[[b df] lg]|] eqn:Hw
    end; [|discriminate].
    destruct (hs_properties self) as [props|]; [|discriminate].
    injection Hcall as _ <- <-.
    assert (Hquiet : ~ rollover_fires tok -> lg = [] ->
              (lg <> [] <-> SEARCH = SEARCH /\ rollover_fires tok)
              /\ (lg <> [] ->
                  exists d', date_filter (set_date_filter self df) = Some d'
                    /\ last lg (WARNING, "")
                       = (WARNING, date_filter_warning d'))).
    { intros Hno ->.
      split; [split|]; [intros H; now elim H | intros [_ H]; contradiction
                       | intros H; now elim H]. }
    destruct (truthy tok) eqn:Ht.
    + destruct (py_int tok) as [n|] eqn:Hn; [|discriminate].
      destruct (n + 100 >=? 10000)%Z eqn:Hge.
      * assert (Hfires : rollover_fires tok).
        { split; [assumption|]. exists n. split; [assumption|].
          destruct (Z.geb_spec (n + 100) 10000); [lia | discriminate]. }
        destruct (next_date_filter ctx) as [m|]; [|discriminate].
        destruct (dt_eqb d m).
        -- destruct (dt_add_seconds d 1) as [d1|]; [|discriminate].
           injection Hw as _ <- <-.
           split; [split|]; [intros _; now split | intros _; discriminate|].
           intros _. exists d1. split; reflexivity.
        -- injection Hw as _ <- <-.
           split; [split|]; [intros _; now split | intros _; discriminate|].
           intros _. exists m. split; reflexivity.
      * apply Hquiet; [|now injection Hw as _ _ <-].
        intros (_ & n' & Hn' & Hge'). rewrite Hn in Hn'. injection Hn' as <-.
        destruct (Z.geb_spec (n + 100) 10000); [discriminate | lia].
    + apply Hquiet; [|now injection Hw as _ _ <-].
      intros (Ht' & _). rewrite Ht in Ht'. discriminate.
Qed.

Lemma next_date_filter_aware (ctx : context) (m : datetime) :
  next_date_filter ctx = Ok m -> utcoffset m = Some 0%Z.
Proof.
  unfold next_date_filter, bind.
  destruct (py_get (get_context_state ctx) "progress_markers" VNone)
    as [markers|]; [|discriminate].
  destruct (py_get markers "replication_key_value" VNone) as [rkv|];
    [|discriminate].
  apply strptime_to_utc_aware.
Qed.

(** X18: a naive date filter never equals the marker, which is always in UTC:
    the first rollover of such a run takes the marker, whatever its value,
    and from then on the date filter is aware. *)
Theorem payload_naive_filter_takes_marker (self : stream) (ctx : context)
    (tok : value) (n : Z) (d m : datetime) (props : dict) :
  select_mode self ctx = SEARCH ->
  py_int tok = Ok n -> (n + 100 >= 10000)%Z ->
  date_filter_in_force self ctx = Ok d ->
  utcoffset d = None ->
  next_date_filter ctx = Ok m ->
  hs_properties self = Some props ->
  exists body,
    prepare_request_payload self ctx tok
    = Ok (body, set_date_filter self m, [ (WARNING, date_filter_warning m) ])
    /\ utcoffset m = Some 0%Z.
Proof.
  intros Hm Hn Hge Hd Hnaive Hnext Hp.
  pose proof (next_date_filter_aware ctx m Hnext) as Haware.
  assert (Hneq : dt_eqb d m = false)
    by (unfold dt_eqb; now rewrite Hnaive, Haware).
  rewrite (payload_unfold self ctx tok d props Hm Hd Hp).
  rewrite (py_int_truthy tok n Hn) by lia.
  rewrite Hn. simpl. rewrite (rollover_test n Hge), Hnext. simpl.
  rewrite Hneq. simpl. eexists. split; [reflexivity | assumption].
Qed.

(** X19: the one-second step does not hold against a marker that stays where
    it is: a second rollover with the same context state finds the date
    filter one second past the marker, takes them for different, and puts
    the date filter back on the marker. *)
Theorem payload_bump_undone (self : stream) (ctx : context) (tok tok' : value)
    (n n' : Z) (d m : datetime) (props : dict) :
  select_mode self ctx = SEARCH ->
  py_int tok = Ok n -> (n + 100 >= 10000)%Z ->
  py_int tok' = Ok n' -> (n' + 100 >= 10000)%Z ->
  date_filter_in_force self ctx = Ok d ->
  next_date_filter ctx = Ok m ->
  dt_eqb d m = true ->
  (MIN_WALL_US <= wall_us d)%Z -> (wall_us d + 1000000 <= MAX_WALL_US)%Z ->
  hs_properties self = Some props ->
  exists body1 self1 logs1 body2 self2 logs2 d1,
    prepare_request_payload self ctx tok = Ok (body1, self1, logs1)
    /\ date_filter self1 = Some d1
    /\ prepare_request_payload self1 ctx tok' = Ok (body2, self2, logs2)
    /\ date_filter self2 = Some m
    /\ ~ dt_le d1 m.
Proof.
  intros Hm Hn Hge Hn' Hge' Hd Hnext Heq Hlo Hhi Hp.
  pose proof (next_date_filter_aware ctx m Hnext) as Haware.
  set (d1 := mk_datetime (wall_us d + 1000000) (utcoffset d)).
  assert (Hoff : exists o, utcoffset d = Some o
                   /\ (wall_us d - o = wall_us m - 0)%Z).
  { unfold dt_eqb in Heq. rewrite Haware in Heq.
    destruct (utcoffset d) as [o|]; [|discriminate].
    exists o. split; [reflexivity|]. now apply Z.eqb_eq. }
  destruct Hoff as (o & Ho & Hinst).
  assert (Hneq : dt_eqb d1 m = false).
  { unfold dt_eqb, d1. simpl. rewrite Ho, Haware. apply Z.eqb_neq. lia. }
  exists (dict_update [] (search_entries self (epoch_ts d1) props)),
         (set_date_filter self d1),
         [ (WARNING, same_cursor_warning); (WARNING, date_filter_warning d1) ].
  exists (dict_update []
            (search_entries (set_date_filter self d1) (epoch_ts m) props)),
         (set_date_filter (set_date_filter self d1) m),
         [ (WARNING, date_filter_warning m) ], d1.
  split; [|split; [reflexivity|split; [|split; [reflexivity|]]]].
  - rewrite (payload_unfold self ctx tok d props Hm Hd Hp).
    rewrite (py_int_truthy tok n Hn) by lia.
    rewrite Hn. simpl. rewrite (rollover_test n Hge), Hnext. simpl.
    rewrite Heq, (dt_add_seconds_ok d Hlo Hhi). reflexivity.
  - assert (Hm1 : select_mode (set_date_filter self d1) ctx = SEARCH)
      by exact Hm.
    assert (Hd1 : date_filter_in_force (set_date_filter self d1) ctx = Ok d1)
      by reflexivity.
    assert (Hp1 : hs_properties (set_date_filter self d1) = Some props)
      by exact Hp.
    rewrite (payload_unfold _ ctx tok' d1 props Hm1 Hd1 Hp1).
    rewrite (py_int_truthy tok' n' Hn') by lia.
    rewrite Hn'. simpl. rewrite (rollover_test n' Hge'), Hnext. simpl.
    rewrite Hneq. reflexivity.
  - unfold dt_le, d1. simpl. rewrite Ho, Haware. lia.
Qed.

(** X20: a search body has the four search entries and, before them, [after]
    when the token is carried: no other key. *)
Theorem payload_body_keys (self self' : stream) (ctx : context)
    (tok : value) (body : dict) (logs : list log_record) :
  select_mode self ctx = SEARCH ->
  prepare_request_payload self ctx tok = Ok (body, self', logs) ->
  dict_keys body
  = ((match dict_get "after" body with
      | Some _ => [ "after" ]
      | None => []
      end) ++ [ "filterGroups"; "sorts"; "limit"; "properties" ])%list.
Proof.
  intros Hm Hcall.
  destruct (payload_search_inv _ _ _ _ _ _ Hm Hcall)
    as (b & df & props & [-> | [t ->]] & _ & -> & _); reflexivity.
Qed.

End PayloadFurther.

Lemma payload_keeps_attributes_witness :
  name (Sample.contacts_at (Sample.june 2)) = name (Sample.contacts_at (Sample.june 1))
  /\ replication_method (Sample.contacts_at (Sample.june 2))
     = replication_method (Sample.contacts_at (Sample.june 1))
  /\ replication_key (Sample.contacts_at (Sample.june 2))
     = replication_key (Sample.contacts_at (Sample.june 1))
  /\ incremental_path (Sample.contacts_at (Sample.june 2))
     = incremental_path (Sample.contacts_at (Sample.june 1))
  /\ hs_properties (Sample.contacts_at (Sample.june 2))
     = hs_properties (Sample.contacts_at (Sample.june 1))
  /\ path (Sample.contacts_at (Sample.june 2))
     = path (Sample.contacts_at (Sample.june 1))
  /\ rest_method (Sample.contacts_at (Sample.june 2))
     = rest_method (Sample.contacts_at (Sample.june 1))
  /\ forall ctx',
       select_mode (Sample.contacts_at (Sample.june 2)) ctx'
       = select_mode (Sample.contacts_at (Sample.june 1)) ctx'.
Proof.
  apply (@payload_keeps_attributes Iso8601.runtime
           (Sample.contacts_at (Sample.june 1))
           (Sample.contacts_at (Sample.june 2))
           (Sample.state_with "2023-06-01T00:00:00Z" "2023-06-02T00:00:00Z")
           (VStr "9905") (Sample.search_body "1685664000000")
           [ (WARNING,
              "Date filter set to 2023-06-02T00:00:00+00:00 based on progress marker value.") ]).
  reflexivity.
Defined.

Lemma payload_after_below_cap_witness :
  VStr "200" = VStr "200"
  /\ exists n, py_int (VStr "200") = Ok n /\ (n + 100 < 10000)%Z.
Proof.
  apply (@payload_after_below_cap Iso8601.runtime
           (Sample.contacts_at (Sample.june 1))
           (Sample.contacts_at (Sample.june 1))
           (Sample.state_with "2023-06-01T00:00:00Z" "2023-06-01T08:00:00Z")
           (VStr "200") (VStr "200")
           (("after", VStr "200") :: Sample.search_body "1685577600000") []);
    reflexivity.
Defined.

Lemma payload_first_page_witness :
  exists body,
    @prepare_request_payload Iso8601.runtime Sample.contacts
      (Sample.state_with "2023-06-01T00:00:00Z" "2023-06-01T00:00:00Z") VNone
    = Ok (body, set_date_filter Sample.contacts (Sample.june 1), [])
    /\ dict_get "after" body = None
    /\ filter_value body = Some (VStr (@epoch_ts Iso8601.runtime (Sample.june 1))).
Proof.
  apply (@payload_first_page Iso8601.runtime Sample.contacts _ VNone
           (Sample.june 1) Sample.contacts_properties); reflexivity.
Defined.

Lemma payload_token_not_a_number_witness :
  @prepare_request_payload Iso8601.runtime (Sample.contacts_at (Sample.june 1))
    (Sample.state_with "2023-06-01T00:00:00Z" "2023-06-01T00:00:00Z")
    (VStr "NTI1Cg%3D%3D") = Raise ValueError.
Proof.
  apply (@payload_token_not_a_number Iso8601.runtime _ _ _ (Sample.june 1));
    reflexivity.
Defined.

Lemma payload_rollover_without_markers_witness :
  @prepare_request_payload Iso8601.runtime (Sample.contacts_at (Sample.june 1))
    (mk_context (VStr "2023-06-01T00:00:00Z")
       (VDict [ ("replication_key", VStr "lastmodifieddate");
                ("replication_key_value", VStr "2023-06-01T00:00:00Z") ]))
    (VStr "9900") = Raise AttributeError.
Proof.
  apply (@payload_rollover_without_markers Iso8601.runtime _ _ _ 9900
           (Sample.june 1)
           [ ("replication_key", VStr "lastmodifieddate");
             ("replication_key_value", VStr "2023-06-01T00:00:00Z") ]);
    try reflexivity.
  lia.
Defined.

Lemma payload_logs_on_rollover_witness :
  ([ (WARNING,
      "Date filter set to 2023-06-02T00:00:00+00:00 based on progress marker value.") ]
   <> []
   <-> select_mode (Sample.contacts_at (Sample.june 1))
         (Sample.state_with "2023-06-01T00:00:00Z" "2023-06-02T00:00:00Z")
       = SEARCH
       /\ @rollover_fires (VStr "9905"))
  /\ ([ (WARNING,
         "Date filter set to 2023-06-02T00:00:00+00:00 based on progress marker value.") ]
      <> [] ->
      exists d', date_filter (Sample.contacts_at (Sample.june 2)) = Some d'
        /\ last [ (WARNING,
                   "Date filter set to 2023-06-02T00:00:00+00:00 based on progress marker value.") ]
             (WARNING, "")
           = (WARNING, @date_filter_warning Iso8601.runtime d')).
Proof.
  apply (@payload_logs_on_rollover Iso8601.runtime
           (Sample.contacts_at (Sample.june 1))
           (Sample.contacts_at (Sample.june 2))
           (Sample.state_with "2023-06-01T00:00:00Z" "2023-06-02T00:00:00Z")
           (VStr "9905") (Sample.search_body "1685664000000")).
  reflexivity.
Defined.

Lemma payload_naive_filter_takes_marker_witness :
  exists body,
    @prepare_request_payload Iso8601.runtime
      (Sample.contacts_at (mk_datetime 1685577600000000 None))
      (Sample.state_with "2023-06-01T00:00:00" "2023-06-01T00:00:00Z")
      (VStr "9900")
    = Ok (body,
          set_date_filter
            (Sample.contacts_at (mk_datetime 1685577600000000 None))
            (Sample.june 1),
          [ (WARNING, @date_filter_warning Iso8601.runtime (Sample.june 1)) ])
    /\ utcoffset (Sample.june 1) = Some 0%Z.
Proof.
  apply (@payload_naive_filter_takes_marker Iso8601.runtime _ _ _ 9900
           (mk_datetime 1685577600000000 None) (Sample.june 1)
           Sample.contacts_properties); try reflexivity.
  lia.
Defined.

Lemma payload_bump_undone_witness :
  exists body1 self1 logs1 body2 self2 logs2 d1,
    @prepare_request_payload Iso8601.runtime
      (Sample.contacts_at (Sample.june 1))
      (Sample.state_with "2023-06-01T00:00:00Z" "2023-06-01T00:00:00Z")
      (VStr "9900") = Ok (body1, self1, logs1)
    /\ date_filter self1 = Some d1
    /\ @prepare_request_payload Iso8601.runtime self1
         (Sample.state_with "2023-06-01T00:00:00Z" "2023-06-01T00:00:00Z")
         (VStr "9900") = Ok (body2, self2, logs2)
    /\ date_filter self2 = Some (Sample.june 1)
    /\ ~ dt_le d1 (Sample.june 1).
Proof.
  apply (@payload_bump_undone Iso8601.runtime _ _ (VStr "9900") (VStr "9900")
           9900 9900 (Sample.june 1) (Sample.june 1)
           Sample.contacts_properties); try reflexivity.
  - lia.
  - lia.
  - vm_compute. discriminate.
  - vm_compute. discriminate.
Defined.

Lemma payload_body_keys_witness :
  dict_keys (("after", VStr "200") :: Sample.search_body "1685577600000")
  = ((match dict_get "after"
              (("after", VStr "200") :: Sample.search_body "1685577600000") with
      | Some _ => [ "after" ]
      | None => []
      end) ++ [ "filterGroups"; "sorts"; "limit"; "properties" ])%list.
Proof.
  apply (@payload_body_keys Iso8601.runtime
           (Sample.contacts_at (Sample.june 1))
           (Sample.contacts_at (Sample.june 1))
           (Sample.state_with "2023-06-01T00:00:00Z" "2023-06-01T08:00:00Z")
           (VStr "200") _ []); reflexivity.
Defined.

(** ** The property catalogue *)

Lemma dict_get_app (k : string) (d1 d2 : dict) :
  dict_get k (d1 ++ d2)%list
  = match dict_get k d1 with
    | Some v => Some v
    | None => dict_get k d2
    end.
Proof.
  induction d1 as [|[k' v'] rest IH]; simpl; [reflexivity|].
  destruct (k =? k')%string; [reflexivity | exact IH].
Qed.

(** After [d.update(other)] a key holds the last value [other] gives it,
    or the value it had. *)
Lemma dict_get_update (k : string) (other d : dict) :
  dict_get k (dict_update d other)
  = match dict_get k (rev other) with
    | Some v => Some v
    | None => dict_get k d
    end.
Proof.
  unfold dict_update. revert d.
  induction other as [|[k0 v0] rest IH]; intros d; simpl; [reflexivity|].
  rewrite IH, dict_get_app. simpl.
  destruct (dict_get k (rev rest)); [reflexivity|].
  destruct (String.eqb_spec k k0) as [->|Hne].
  - apply dict_get_set_same.
  - now apply dict_get_set_other.
Qed.

Lemma dict_update_nodup (other d : dict) :
  NoDup (dict_keys d) -> NoDup (dict_keys (dict_update d other)).
Proof.
  unfold dict_update. revert d.
  induction other as [|[k0 v0] rest IH]; intros d Hnd; simpl; [assumption|].
  apply IH. now apply dict_set_nodup.
Qed.

Lemma collect_properties_entries (xs : list value)
    (pairs : list (string * value)) (acc : dict) :
  map entry_name_type xs = map Some pairs ->
  DynamicHubspotStream.collect_properties xs acc
  = Some (Ok (dict_update acc pairs)).
Proof.
  revert pairs acc.
  induction xs as [|x rest IH]; intros [|[n t] pairs] acc Hmap;
    try discriminate; [reflexivity|].
  simpl in Hmap. injection Hmap as Hx Hrest.
  simpl. destruct x as [| | | | |d]; try discriminate.
  simpl in Hx. simpl.
  destruct (dict_get "name" d) as [[| | |s| |]|]; try discriminate.
  destruct (dict_get "type" d) as [t'|]; [|discriminate].
  injection Hx as -> ->. simpl.
  now apply IH.
Qed.

(** X23: when every entry of the metadata response names a property and gives
    its type, the catalogue holds each name once, with the type of the
    last entry of that name. *)
Theorem available_properties_catalogue (resp : dict) (xs : list value)
    (pairs : list (string * value)) :
  dict_get "results" resp = Some (VList xs) ->
  map entry_name_type xs = map Some pairs ->
  exists catalogue,
    DynamicHubspotStream._get_available_properties (VDict resp)
    = Some (Ok catalogue)
    /\ NoDup (dict_keys catalogue)
    /\ forall n, dict_get n catalogue = dict_get n (rev pairs).
Proof.
  intros Hres Hmap.
  exists (dict_update [] pairs).
  unfold DynamicHubspotStream._get_available_properties. simpl.
  rewrite Hres. simpl.
  split; [now apply collect_properties_entries|].
  split.
  - apply dict_update_nodup. constructor.
  - intros n. rewrite dict_get_update.
    destruct (dict_get n (rev pairs)); reflexivity.
Qed.

Lemma available_properties_catalogue_witness :
  exists catalogue,
    DynamicHubspotStream._get_available_properties Sample.metadata
    = Some (Ok catalogue)
    /\ NoDup (dict_keys catalogue)
    /\ forall n,
         dict_get n catalogue
         = dict_get n
             (rev [ ("email", VStr "string");
                    ("lastmodifieddate", VStr "date");
                    ("hs_object_id", VStr "number");
                    ("lastmodifieddate", VStr "datetime") ]).
Proof.
  apply (available_properties_catalogue
           [ ("results",
              VList [ VDict [ ("name", VStr "email"); ("type", VStr "string");
                              ("label", VStr "Email") ];
                      VDict [ ("name", VStr "lastmodifieddate");
                              ("type", VStr "date") ];
                      VDict [ ("name", VStr "hs_object_id");
                              ("type", VStr "number") ];
                      VDict [ ("name", VStr "lastmodifieddate");
                              ("type", VStr "datetime") ] ]) ]
           [ VDict [ ("name", VStr "email"); ("type", VStr "string");
                     ("label", VStr "Email") ];
             VDict [ ("name", VStr "lastmodifieddate"); ("type", VStr "date") ];
             VDict [ ("name", VStr "hs_object_id"); ("type", VStr "number") ];
             VDict [ ("name", VStr "lastmodifieddate");
                     ("type", VStr "datetime") ] ]);
    reflexivity.
Defined.

(** X24: one entry without [name] or without [type], after entries that are in
    order, and there is no catalogue at all: [KeyError]. *)
Theorem available_properties_incomplete_entry (resp entry : dict)
    (good rest : list value) (pairs : list (string * value)) :
  dict_get "results" resp = Some (VList (good ++ VDict entry :: rest)%list) ->
  map entry_name_type good = map Some pairs ->
  dict_get "name" entry = None \/ dict_get "type" entry = None ->
  DynamicHubspotStream._get_available_properties (VDict resp)
  = Some (Raise KeyError).
Proof.
  intros Hres Hmap Hmiss.
  unfold DynamicHubspotStream._get_available_properties. simpl.
  rewrite Hres. simpl. clear Hres.
  generalize (@nil (string * value)).
  revert pairs Hmap.
  induction good as [|x good IH]; intros pairs Hmap acc.
  - simpl.
    destruct (dict_get "name" entry) as [k|]; [|reflexivity].
    destruct Hmiss as [Hmiss | ->]; [discriminate | reflexivity].
  - destruct pairs as [|[n t] pairs]; [discriminate|].
    simpl in Hmap. injection Hmap as Hx Hrest.
    destruct x as [| | | | |d]; try discriminate.
    simpl in Hx. simpl.
    destruct (dict_get "name" d) as [[| | |s| |]|]; try discriminate.
    destruct (dict_get "type" d) as [t'|]; [|discriminate].
    simpl. now apply (IH pairs).
Qed.

Lemma available_properties_incomplete_entry_witness :
  DynamicHubspotStream._get_available_properties
    (VDict [ ("results",
              VList [ VDict [ ("name", VStr "email"); ("type", VStr "string") ];
                      VDict [ ("name", VStr "phone") ] ]) ])
  = Some (Raise KeyError).
Proof.
  apply (available_properties_incomplete_entry
           [ ("results",
              VList [ VDict [ ("name", VStr "email"); ("type", VStr "string") ];
                      VDict [ ("name", VStr "phone") ] ]) ]
           [ ("name", VStr "phone") ]
           [ VDict [ ("name", VStr "email"); ("type", VStr "string") ] ]
           [] [ ("email", VStr "string") ]).
  - reflexivity.
  - reflexivity.
  - right. reflexivity.
Defined.

(** ** Schemas *)

Lemma property_type_set_same (n : string) (t : json_type)
    (props : PropertiesList) :
  property_type n (properties_set n t props) = Some t.
Proof.
  induction props as [|[n' t'] rest IH]; simpl.
  - now rewrite String.eqb_refl.
  - destruct (n =? n')%string eqn:E; simpl.
    + now rewrite String.eqb_refl.
    + now rewrite E.
Qed.

Lemma property_type_set_other (n k : string) (t : json_type)
    (props : PropertiesList) :
  n <> k -> property_type n (properties_set k t props) = property_type n props.
Proof.
  intros Hne. apply String.eqb_neq in Hne.
  induction props as [|[n' t'] rest IH]; simpl.
  - now rewrite Hne.
  - destruct (k =? n')%string eqn:E; simpl.
    + apply String.eqb_eq in E. subst n'. now rewrite Hne.
    + now rewrite IH.
Qed.

Lemma properties_set_names_in (n : string) (t : json_type)
    (props : PropertiesList) :
  In n (map fst props) -> map fst (properties_set n t props) = map fst props.
Proof.
  induction props as [|[n' t'] rest IH]; simpl; [contradiction|].
  intros Hin. destruct (String.eqb_spec n n') as [->|Hne]; simpl.
  - reflexivity.
  - f_equal. apply IH. destruct Hin as [Heq|Hin]; [congruence | assumption].
Qed.

Lemma properties_set_new (n : string) (t : json_type)
    (props : PropertiesList) :
  ~ In n (map fst props) -> properties_set n t props = (props ++ [(n, t)])%list.
Proof.
  induction props as [|[n' t'] rest IH]; simpl; [reflexivity|].
  intros Hnin. destruct (String.eqb_spec n n') as [->|Hne]; simpl.
  - exfalso. apply Hnin. now left.
  - f_equal. apply IH. intros Hin. apply Hnin. now right.
Qed.

Lemma properties_set_nodup (n : string) (t : json_type)
    (props : PropertiesList) :
  NoDup (map fst props) -> NoDup (map fst (properties_set n t props)).
Proof.
  intros Hnd. destruct (in_dec string_dec n (map fst props)) as [Hin|Hnin].
  - now rewrite properties_set_names_in.
  - rewrite properties_set_new, map_app by assumption. simpl.
    apply NoDup_app; [assumption | constructor; [intros [] | constructor] |].
    intros x Hx [<-|[]]. contradiction.
Qed.

(** Properties with distinct names are stored as they were given. *)
Lemma properties_list_distinct (given : list (string * json_type)) :
  NoDup (map fst given) -> properties_list given = given.
Proof.
  unfold properties_list.
  enough (H : forall acc,
            NoDup (map fst (acc ++ given)%list) ->
            fold_left (fun a p => properties_set (fst p) (snd p) a) given acc
            = (acc ++ given)%list)
    by (intros Hnd; exact (H [] Hnd)).
  induction given as [|[n t] rest IH]; intros acc Hnd; simpl.
  - now rewrite app_nil_r.
  - assert (Hnin : ~ In n (map fst acc)).
    { rewrite map_app in Hnd. simpl in Hnd.
      apply NoDup_remove_2 in Hnd. intros Hin. apply Hnd.
      apply in_or_app. now left. }
    rewrite (properties_set_new n t acc Hnin).
    rewrite IH; rewrite <- app_assoc; [reflexivity | exact Hnd].
Qed.

Lemma hs_props_names (catalogue : dict) :
  DynamicHubspotStream.hs_props catalogue
  = map (fun n => (n, StringType)) (dict_keys catalogue).
Proof.
  unfold DynamicHubspotStream.hs_props, dict_keys.
  rewrite map_map. reflexivity.
Qed.

Lemma nested_properties (catalogue : dict) :
  NoDup (dict_keys catalogue) ->
  properties_list (DynamicHubspotStream.hs_props catalogue)
  = map (fun n => (n, StringType)) (dict_keys catalogue).
Proof.
  intros Hnd. rewrite hs_props_names.
  apply properties_list_distinct.
  rewrite map_map. simpl. now rewrite map_id.
Qed.

Lemma parent_schema (self : stream) (catalogue : dict) :
  DynamicHubspotStream.schema self (Ok catalogue)
  = Ok ([ ("id", StringType);
          ("properties",
            ObjectType
              (properties_list (DynamicHubspotStream.hs_props catalogue)));
          ("createdAt", DateTimeType);
          ("updatedAt", DateTimeType);
          ("archived", BooleanType) ],
        set_hs_properties self catalogue).
Proof. reflexivity. Qed.

Lemma incremental_schema (self : stream) (catalogue : dict) :
  schema self (Ok catalogue)
  = Ok (match replication_key self with
        | Some key =>
            if (key =? "")%string
            then [ ("id", StringType);
                   ("properties",
                     ObjectType
                       (properties_list
                          (DynamicHubspotStream.hs_props catalogue)));
                   ("createdAt", DateTimeType);
                   ("updatedAt", DateTimeType);
                   ("archived", BooleanType) ]
            else properties_set key DateTimeType
                   [ ("id", StringType);
                     ("properties",
                       ObjectType
                         (properties_list
                            (DynamicHubspotStream.hs_props catalogue)));
                     ("createdAt", DateTimeType);
                     ("updatedAt", DateTimeType);
                     ("archived", BooleanType) ]
        | None =>
            [ ("id", StringType);
              ("properties",
                ObjectType
                  (properties_list (DynamicHubspotStream.hs_props catalogue)));
              ("createdAt", DateTimeType);
              ("updatedAt", DateTimeType);
              ("archived", BooleanType) ]
        end,
        set_hs_properties self catalogue).
Proof.
  unfold schema, bind.
  change (replication_key (set_hs_properties self catalogue))
    with (replication_key self).
  destruct (replication_key self) as [key|]; [|reflexivity].
  simpl truthy. destruct (key =? "")%string; reflexivity.
Qed.

(** A replication key named [properties] takes the place of the nested
    object in the schema. *)
Example schema_with_properties_as_key :
  schema (mk_stream "deals" "INCREMENTAL" (Some "properties") None None None
            VNone "GET")
    (Ok [ ("amount", VStr "number") ])
  = Ok ([ ("id", StringType);
          ("properties", DateTimeType);
          ("createdAt", DateTimeType);
          ("updatedAt", DateTimeType);
          ("archived", BooleanType) ],
        mk_stream "deals" "INCREMENTAL" (Some "properties") None
          (Some [ ("amount", VStr "number") ]) None VNone "GET").
Proof. reflexivity. Qed.

(** X25: the declared types of the catalogue do not reach the schema: two
    catalogues with the same names give the same schema, and unless the
    replication key is itself named [properties], the nested [properties]
    object declares every name of the catalogue as a string. *)
Theorem schema_ignores_declared_types (self : stream) (c1 c2 : dict) :
  dict_keys c1 = dict_keys c2 ->
  exists props self1 self2,
    schema self (Ok c1) = Ok (props, self1)
    /\ schema self (Ok c2) = Ok (props, self2)
    /\ (replication_key self <> Some "properties" ->
        NoDup (dict_keys c1) ->
        property_type "properties" props
        = Some (ObjectType (map (fun n => (n, StringType)) (dict_keys c1)))).
Proof.
  intros Hkeys.
  rewrite (incremental_schema self c1), (incremental_schema self c2).
  rewrite !hs_props_names, <- Hkeys.
  do 3 eexists. split; [reflexivity|]. split; [reflexivity|].
  intros Hkey Hnd.
  pose proof (nested_properties c1 Hnd) as Hnested.
  rewrite hs_props_names in Hnested. rewrite Hnested.
  destruct (replication_key self) as [key|]; [|reflexivity].
  destruct (key =? "")%string; [reflexivity|].
  rewrite property_type_set_other; [reflexivity|].
  intros <-. now apply Hkey.
Qed.

Lemma schema_ignores_declared_types_witness :
  exists props self1 self2,
    schema Sample.contacts (Ok Sample.contacts_properties) = Ok (props, self1)
    /\ schema Sample.contacts
         (Ok [ ("email", VStr "enumeration");
               ("lastmodifieddate", VStr "string");
               ("hs_object_id", VStr "string") ]) = Ok (props, self2)
    /\ (replication_key Sample.contacts <> Some "properties" ->
        NoDup (dict_keys Sample.contacts_properties) ->
        property_type "properties" props
        = Some (ObjectType (map (fun n => (n, StringType))
                              (dict_keys Sample.contacts_properties)))).
Proof.
  apply (schema_ignores_declared_types Sample.contacts
           Sample.contacts_properties
           [ ("email", VStr "enumeration");
             ("lastmodifieddate", VStr "string");
             ("hs_object_id", VStr "string") ]).
  reflexivity.
Defined.

(** Without a replication key the two classes build the same schema. *)
Lemma incremental_schema_without_key (self : stream)
    (available : result dict) :
  replication_key self = None \/ replication_key self = Some "" ->
  schema self available = DynamicHubspotStream.schema self available.
Proof.
  intros Hk. destruct available as [catalogue|e]; [|reflexivity].
  rewrite incremental_schema, parent_schema.
  destruct Hk as [-> | ->]; reflexivity.
Qed.

(** X26: with a replication key, the schema of the incremental class
    declares that key as a timestamp, declares every other name as the
    parent's schema does, and holds each name once: a key named like one
    of the five envelope properties takes that property's place, any other
    key comes after them.  Both classes store the same catalogue. *)
Theorem incremental_schema_extends (self : stream) (catalogue : dict)
    (key : string) :
  replication_key self = Some key -> key <> "" ->
  exists props0 props self',
    DynamicHubspotStream.schema self (Ok catalogue) = Ok (props0, self')
    /\ schema self (Ok catalogue) = Ok (props, self')
    /\ property_type key props = Some DateTimeType
    /\ (forall n, n <> key -> property_type n props = property_type n props0)
    /\ NoDup (map fst props)
    /\ (In key envelope_names -> map fst props = envelope_names)
    /\ (~ In key envelope_names ->
        props = (props0 ++ [ (key, DateTimeType) ])%list).
Proof.
  intros Hk Hne.
  rewrite parent_schema, incremental_schema, Hk.
  apply String.eqb_neq in Hne. rewrite Hne.
  do 3 eexists. split; [reflexivity|]. split; [reflexivity|].
  set (props0 := [ ("id", StringType);
                   ("properties",
                     ObjectType
                       (properties_list
                          (DynamicHubspotStream.hs_props catalogue)));
                   ("createdAt", DateTimeType);
                   ("updatedAt", DateTimeType);
                   ("archived", BooleanType) ]).
  assert (Hnames : map fst props0 = envelope_names) by reflexivity.
  assert (Hnd : NoDup (map fst props0)).
  { rewrite Hnames. unfold envelope_names.
    repeat constructor; simpl; intuition discriminate. }
  split; [apply property_type_set_same|].
  split; [intros n Hn; now apply property_type_set_other|].
  split; [now apply properties_set_nodup|].
  split.
  - intros Hin. rewrite properties_set_names_in; [assumption|].
    now rewrite Hnames.
  - intros Hnin. apply properties_set_new. now rewrite Hnames.
Qed.

Lemma incremental_schema_extends_witness :
  exists props0 props self',
    DynamicHubspotStream.schema Sample.contacts_unread
      (Ok Sample.contacts_properties) = Ok (props0, self')
    /\ schema Sample.contacts_unread (Ok Sample.contacts_properties)
       = Ok (props, self')
    /\ property_type "lastmodifieddate" props = Some DateTimeType
    /\ (forall n, n <> "lastmodifieddate" ->
          property_type n props = property_type n props0)
    /\ NoDup (map fst props)
    /\ (In "lastmodifieddate" envelope_names -> map fst props = envelope_names)
    /\ (~ In "lastmodifieddate" envelope_names ->
        props = (props0 ++ [ ("lastmodifieddate", DateTimeType) ])%list).
Proof.
  apply (incremental_schema_extends Sample.contacts_unread
           Sample.contacts_properties "lastmodifieddate").
  - reflexivity.
  - discriminate.
Defined.

Section SchemaAndRequests.
Context {rt : Runtime}.

(** X27: reading the schema is what makes requests possible, and the two
    agree: the stream returned by [schema] carries the catalogue, and
    unless the replication key is itself named [properties], every search
    body the stream then produces asks for exactly the names declared
    inside the schema's [properties] object, in the same order. *)
Theorem schema_names_are_requested (self self' self'' : stream)
    (catalogue : dict) (props : PropertiesList) (ctx : context)
    (tok : value) (body : dict) (logs : list log_record) :
  NoDup (dict_keys catalogue) ->
  replication_key self <> Some "properties" ->
  schema self (Ok catalogue) = Ok (props, self') ->
  select_mode self' ctx = SEARCH ->
  prepare_request_payload self' ctx tok = Ok (body, self'', logs) ->
  hs_properties self' = Some catalogue
  /\ exists names,
       nested_names props = Some names
       /\ dict_get "properties" body = Some (VList (map VStr names)).
Proof.
  intros Hnd Hkey Hschema Hm Hcall.
  rewrite incremental_schema in Hschema.
  assert (Hself : self' = set_hs_properties self catalogue)
    by (now injection Hschema).
  assert (Hpt : property_type "properties" props
                = Some (ObjectType
                          (properties_list
                             (DynamicHubspotStream.hs_props catalogue)))).
  { injection Hschema as <- _.
    destruct (replication_key self) as [key|]; [|reflexivity].
    destruct (key =? "")%string; [reflexivity|].
    repeat match goal with
           | |- context [(key =? ?x)%string] =>
               destruct (String.eqb_spec key x); [subst key|]
           end; try reflexivity; congruence. }
  subst self'. split; [reflexivity|].
  exists (dict_keys catalogue). split.
  - unfold nested_names.
    rewrite Hpt, (nested_properties catalogue Hnd), map_map. simpl.
    now rewrite map_id.
  - destruct (payload_search_inv _ _ _ _ _ _ Hm Hcall)
      as (b & df & props' & Hb & Hp & -> & _).
    simpl in Hp. injection Hp as <-.
    destruct Hb as [-> | [t ->]]; reflexivity.
Qed.

End SchemaAndRequests.

Lemma schema_names_are_requested_witness :
  hs_properties Sample.contacts = Some Sample.contacts_properties
  /\ exists names,
       nested_names
         [ ("id", StringType);
           ("properties",
             ObjectType [ ("email", StringType);
                          ("lastmodifieddate", StringType);
                          ("hs_object_id", StringType) ]);
           ("createdAt", DateTimeType);
           ("updatedAt", DateTimeType);
           ("archived", BooleanType);
           ("lastmodifieddate", DateTimeType) ] = Some names
       /\ dict_get "properties" (Sample.search_body "1685577600000")
          = Some (VList (map VStr names)).
Proof.
  apply (@schema_names_are_requested Iso8601.runtime
           Sample.contacts_unread
           Sample.contacts (Sample.contacts_at (Sample.june 1))
           Sample.contacts_properties _
           (Sample.state_with "2023-06-01T00:00:00Z" "2023-06-01T00:00:00Z")
           VNone _ []); try reflexivity.
  - repeat constructor; simpl; intuition discriminate.
  - discriminate.
Defined.

(** ** Double precision, continued *)

Lemma binade_between (n d k : Z) :
  (0 < n)%Z -> (0 < d)%Z -> (0 <= k)%Z ->
  (d * 2 ^ k <= n < d * 2 ^ (k + 1))%Z ->
  binade n d = k.
Proof.
  intros Hn Hd Hk [Hlo Hhi]. unfold binade.
  destruct (Z.log2_spec n Hn) as [Hn1 Hn2].
  destruct (Z.log2_spec d Hd) as [Hd1 Hd2].
  pose proof (Z.log2_nonneg n) as Han.
  pose proof (Z.log2_nonneg d) as Hbn.
  set (a := Z.log2 n) in *. set (b := Z.log2 d) in *.
  replace (Z.succ a) with (a + 1)%Z in Hn2 by lia.
  replace (Z.succ b) with (b + 1)%Z in Hd2 by lia.
  assert (Hp : (0 < 2 ^ k)%Z) by (apply Z.pow_pos_nonneg; lia).
  assert (Hp1 : (0 < 2 ^ (k + 1))%Z) by (apply Z.pow_pos_nonneg; lia).
  assert (H1 : (b + k < a + 1)%Z).
  { apply (Z.pow_lt_mono_r_iff 2); [lia | lia |].
    rewrite Z.pow_add_r by lia. nia. }
  assert (H2 : (a < (b + 1) + (k + 1))%Z).
  { apply (Z.pow_lt_mono_r_iff 2); [lia | lia |].
    rewrite Z.pow_add_r by lia. nia. }
  assert (Hcases : (a - b = k \/ a - b = k + 1)%Z) by lia.
  destruct (Z.leb_spec 0 (a - b)); [|lia].
  destruct Hcases as [-> | ->].
  - destruct (Z.leb_spec (d * 2 ^ k) n); [reflexivity | lia].
  - destruct (Z.leb_spec (d * 2 ^ (k + 1)) n); lia.
Qed.

Lemma round_double_binade (n d k : Z) :
  (0 < n)%Z -> (0 < d)%Z -> (0 <= k < 52)%Z ->
  (d * 2 ^ k <= n < d * 2 ^ (k + 1))%Z ->
  round_double n d
  = mk_double (nearest_even (n * 2 ^ (52 - k)) d) (2 ^ (52 - k)).
Proof.
  intros Hn Hd Hk Hb. unfold round_double.
  rewrite (binade_between n d k) by (assumption || lia).
  destruct (Z.leb_spec 0 (k - 52)); [lia|].
  replace (- (k - 52))%Z with (52 - k)%Z by lia. reflexivity.
Qed.

(** The nearest integer is within half a unit. *)
Lemma nearest_even_bounds (n d : Z) :
  (0 <= n)%Z -> (0 < d)%Z ->
  (- d <= 2 * (nearest_even n d * d - n) <= d)%Z.
Proof.
  intros Hn Hd. unfold nearest_even.
  pose proof (Z.div_mod n d ltac:(lia)) as Hdm.
  pose proof (Z.mod_pos_bound n d Hd) as Hr.
  set (q := (n / d)%Z) in *. set (r := (n mod d)%Z) in *.
  destruct (Z.ltb_spec (2 * r) d); [nia|].
  destruct (Z.ltb_spec d (2 * r)); [nia|].
  destruct (Z.even q); nia.
Qed.

Lemma nearest_even_scale (a b c : Z) :
  (0 < b)%Z -> (0 < c)%Z ->
  nearest_even (a * c) (b * c) = nearest_even a b.
Proof.
  intros Hb Hc. unfold nearest_even.
  rewrite Z.div_mul_cancel_r by lia.
  rewrite Z.mul_mod_distr_r by lia.
  set (q := (a / b)%Z). set (r := (a mod b)%Z).
  replace (2 * (r * c) <? b * c)%Z with (2 * r <? b)%Z.
  2:{ destruct (Z.ltb_spec (2 * r) b), (Z.ltb_spec (2 * (r * c)) (b * c));
        try reflexivity; nia. }
  replace (b * c <? 2 * (r * c))%Z with (b <? 2 * r)%Z.
  2:{ destruct (Z.ltb_spec b (2 * r)), (Z.ltb_spec (b * c) (2 * (r * c)));
        try reflexivity; nia. }
  reflexivity.
Qed.

Section EpochWindow.
Context {rt : Runtime}.

(** X22: from 2004-11-03T19:53:48Z up to 2038-01-19T03:14:08Z the double
    arithmetic loses nothing: for an aware datetime in that window, with
    any microseconds, [epoch_ts] is the count of whole milliseconds since
    the epoch. *)
Theorem epoch_ts_exact_window (d : datetime) (o : Z) :
  utcoffset d = Some o ->
  (1099511628000000 <= wall_us d - o < 2147483648000000)%Z ->
  epoch_ts d = py_str_of_int ((wall_us d - o) / 1000).
Proof.
  intros Ho [Hlo Hhi]. unfold epoch_ts, timestamp. rewrite Ho.
  set (T := (wall_us d - o)%Z) in *.
  f_equal.
  unfold int_true_div, double_of_int, double_mul, int_of_double.
  (* the seconds as a double: 53 bits over a unit of 2^-22 *)
  assert (Hx : to_double T 1000000
               = mk_double (nearest_even (T * 4194304) 1000000) 4194304).
  { unfold to_double.
    destruct (Z.eqb_spec T 0); [lia|].
    destruct (Z.ltb_spec T 0); [lia|].
    assert (Hb : (1000000 * 2 ^ 30 <= T < 1000000 * 2 ^ (30 + 1))%Z).
    { change (2 ^ 30)%Z with 1073741824%Z.
      change (2 ^ (30 + 1))%Z with 2147483648%Z. lia. }
    rewrite (round_double_binade T 1000000 30) by (assumption || lia).
    reflexivity. }
  rewrite Hx. clear Hx.
  set (m1 := nearest_even (T * 4194304) 1000000).
  pose proof (nearest_even_bounds (T * 4194304) 1000000 ltac:(lia) ltac:(lia))
    as Hm1. fold m1 in Hm1.
  assert (Hk : to_double 1000 1
               = mk_double 8796093022208000 8796093022208)
    by (vm_compute; reflexivity).
  rewrite Hk. clear Hk. cbn [dnum dden].
  (* the product: 53 bits over a unit of 2^-12 *)
  set (n2 := (m1 * 8796093022208000)%Z).
  set (d2 := (4194304 * 8796093022208)%Z).
  assert (Hy : to_double n2 d2
               = mk_double (nearest_even (m1 * 1000) 1024) 4096).
  { unfold to_double, n2, d2.
    destruct (Z.eqb_spec (m1 * 8796093022208000) 0); [lia|].
    destruct (Z.ltb_spec (m1 * 8796093022208000) 0); [lia|].
    assert (Hb : (4194304 * 8796093022208 * 2 ^ 40
                  <= m1 * 8796093022208000
                  < 4194304 * 8796093022208 * 2 ^ (40 + 1))%Z).
    { change (2 ^ 40)%Z with 1099511627776%Z.
      change (2 ^ (40 + 1))%Z with 2199023255552%Z. lia. }
    rewrite (round_double_binade _ _ 40) by (assumption || lia).
    change (2 ^ (52 - 40))%Z with 4096%Z. f_equal.
    replace (m1 * 8796093022208000 * 4096)%Z
      with ((m1 * 1000) * 36028797018963968)%Z by lia.
    replace (4194304 * 8796093022208)%Z
      with (1024 * 36028797018963968)%Z by lia.
    apply nearest_even_scale; lia. }
  rewrite Hy. clear Hy. cbn [dnum dden].
  set (m2 := nearest_even (m1 * 1000) 1024).
  pose proof (nearest_even_bounds (m1 * 1000) 1024 ltac:(lia) ltac:(lia))
    as Hm2. fold m2 in Hm2.
  rewrite Z.quot_div_nonneg by lia.
  pose proof (Z.div_mod T 1000 ltac:(lia)) as HT.
  pose proof (Z.mod_pos_bound T 1000 ltac:(lia)) as Hr.
  symmetry. apply Z.div_unique with (r := (m2 - 4096 * (T / 1000))%Z); lia.
Qed.

End EpochWindow.

Lemma epoch_ts_exact_window_witness :
  @epoch_ts Iso8601.runtime (mk_datetime 1685700672345678 (Some 7200000000%Z))
  = py_str_of_int ((1685700672345678 - 7200000000) / 1000).
Proof.
  apply (@epoch_ts_exact_window Iso8601.runtime
           (mk_datetime 1685700672345678 (Some 7200000000%Z)) 7200000000).
  - reflexivity.
  - simpl. lia.
Defined.

Lemma epoch_ts_whole_second_witness :
  @epoch_ts Iso8601.runtime (Sample.june 2) = py_str_of_int (1685664000 * 1000).
Proof.
  apply (@epoch_ts_whole_second Iso8601.runtime (Sample.june 2) 0 1685664000).
  - reflexivity.
  - reflexivity.
  - lia.
  - vm_compute. reflexivity.
Defined.

(** ** Preparing the request *)

Lemma search_target_frame (self : stream) (ctx : context) :
  name (search_target self ctx) = name self
  /\ replication_method (search_target self ctx) = replication_method self
  /\ replication_key (search_target self ctx) = replication_key self
  /\ incremental_path (search_target self ctx) = incremental_path self
  /\ hs_properties (search_target self ctx) = hs_properties self
  /\ date_filter (search_target self ctx) = date_filter self.
Proof.
  unfold search_target.
  destruct (truthy (_is_incremental_search self ctx));
    [destruct (incremental_path self) eqn:E|];
    repeat split; try reflexivity; simpl; congruence.
Qed.

Lemma search_target_mode (self : stream) (ctx ctx' : context) :
  select_mode (search_target self ctx) ctx' = select_mode self ctx'.
Proof.
  unfold search_target.
  destruct (truthy (_is_incremental_search self ctx)); [|reflexivity].
  destruct (incremental_path self); reflexivity.
Qed.

Lemma search_target_list (self : stream) (ctx : context) :
  select_mode self ctx = LIST -> search_target self ctx = self.
Proof.
  intros Hm. unfold search_target. now rewrite (select_mode_list _ _ Hm).
Qed.

Section RequestProperties.
Context {rt : Runtime}.

(** X10: a successful [prepare_request] changes no attribute of the stream
    other than the path, the method and the date filter, so the mode the
    stream selects is the same after the call; in LIST mode it returns the
    stream exactly as it was, logs nothing and sends an empty JSON body
    with the parameters of [get_url_params]. *)
Theorem prepare_request_keeps_attributes (self self' : stream)
    (ctx : context) (tok : value) (req : prepared_request)
    (logs : list log_record) :
  prepare_request self ctx tok = Ok (req, self', logs) ->
  name self' = name self
  /\ replication_method self' = replication_method self
  /\ replication_key self' = replication_key self
  /\ incremental_path self' = incremental_path self
  /\ hs_properties self' = hs_properties self
  /\ (forall ctx', select_mode self' ctx' = select_mode self ctx')
  /\ (select_mode self ctx = LIST ->
      self' = self /\ logs = [] /\ request_json req = []
      /\ request_method req = rest_method self
      /\ request_path req = path self
      /\ get_url_params self ctx tok = Ok (request_params req)).
Proof.
  intros Hcall. unfold prepare_request, bind in Hcall.
  destruct (get_url_params (search_target self ctx) ctx tok) as [params|] eqn:Hpar;
    [|discriminate].
  destruct (prepare_request_payload (search_target self ctx) ctx tok)
    as [[[body st] lg]|] eqn:Hpay; [|discriminate].
  injection Hcall as <- <- <-.
  destruct (search_target_frame self ctx) as (Hn & Hrm & Hrk & Hip & Hhp & _).
  assert (Hfr : name st = name self
                /\ replication_method st = replication_method self
                /\ replication_key st = replication_key self
                /\ incremental_path st = incremental_path self
                /\ hs_properties st = hs_properties self
                /\ forall ctx', select_mode st ctx' = select_mode self ctx').
  { destruct (payload_stream_result _ _ _ _ _ _ Hpay) as [-> | [d ->]].
    - repeat split; try assumption. intros ctx'. apply search_target_mode.
    - repeat split; try assumption. intros ctx'.
      rewrite <- (search_target_mode self ctx ctx'). reflexivity. }
  destruct Hfr as (H1 & H2 & H3 & H4 & H5 & H6).
  repeat split; try assumption.
  - rewrite (search_target_list _ _ H) in Hpay.
    rewrite (payload_list_mode _ _ _ H) in Hpay. now injection Hpay as _ <- _.
  - rewrite (search_target_list _ _ H) in Hpay.
    rewrite (payload_list_mode _ _ _ H) in Hpay. now injection Hpay as _ _ <-.
  - rewrite (search_target_list _ _ H) in Hpay.
    rewrite (payload_list_mode _ _ _ H) in Hpay. simpl.
    now injection Hpay as <- _ _.
  - simpl. now rewrite (search_target_list _ _ H).
  - simpl. now rewrite (search_target_list _ _ H).
  - simpl. rewrite (search_target_list _ _ H) in Hpar. exact Hpar.
Qed.

(** X11: a search request goes out as a POST to the search path, with
    nothing in the URL query: after the attribute updates the stream is
    pointed there, and whenever [prepare_request] returns, the request it
    built and the stream it leaves are, the JSON body being the one
    [prepare_request_payload] builds on the retargeted stream. *)
Theorem search_request_target (self : stream) (ctx : context) (tok : value) :
  select_mode self ctx = SEARCH ->
  exists p,
    incremental_path self = Some p
    /\ path (search_target self ctx) = p
    /\ rest_method (search_target self ctx) = "POST"
    /\ get_url_params (search_target self ctx) ctx tok = Ok []
    /\ forall req self' logs,
         prepare_request self ctx tok = Ok (req, self', logs) ->
         request_method req = "POST"
         /\ request_path req = p
         /\ request_params req = []
         /\ path self' = p
         /\ rest_method self' = "POST"
         /\ get_url_params self' ctx tok = Ok []
         /\ prepare_request_payload (search_target self ctx) ctx tok
            = Ok (request_json req, self', logs).
Proof.
  intros Hm.
  pose proof (select_mode_search _ _ Hm) as Hs.
  destruct (proj1 (is_incremental_search_truthy self ctx) Hs)
    as (_ & _ & p & Hp & _).
  assert (Ht : search_target self ctx = set_request_target self p "POST")
    by (unfold search_target; now rewrite Hs, Hp).
  assert (Hpar : get_url_params (search_target self ctx) ctx tok = Ok []).
  { rewrite Ht. unfold get_url_params.
    change (_is_incremental_search (set_request_target self p "POST") ctx)
      with (_is_incremental_search self ctx).
    now rewrite Hs. }
  exists p. split; [assumption|].
  split; [now rewrite Ht|]. split; [now rewrite Ht|]. split; [assumption|].
  intros req self' logs Hcall.
  unfold prepare_request, bind in Hcall. rewrite Hpar in Hcall.
  destruct (prepare_request_payload (search_target self ctx) ctx tok)
    as [[[body st] lg]|] eqn:Hpay; [|discriminate].
  injection Hcall as <- <- <-. simpl.
  rewrite Ht in Hpay |- *.
  destruct (payload_stream_result _ _ _ _ _ _ Hpay) as [-> | [d ->]];
    repeat split; try reflexivity;
    unfold get_url_params;
    match goal with
    | |- context [_is_incremental_search ?s ctx] =>
        change (_is_incremental_search s ctx)
          with (_is_incremental_search self ctx)
    end; now rewrite Hs.
Qed.

End RequestProperties.

Lemma prepare_request_keeps_attributes_witness :
  name Sample.contacts = name Sample.contacts
  /\ replication_method Sample.contacts = replication_method Sample.contacts
  /\ replication_key Sample.contacts = replication_key Sample.contacts
  /\ incremental_path Sample.contacts = incremental_path Sample.contacts
  /\ hs_properties Sample.contacts = hs_properties Sample.contacts
  /\ (forall ctx',
        select_mode Sample.contacts ctx' = select_mode Sample.contacts ctx')
  /\ (select_mode Sample.contacts Sample.fresh = LIST ->
      Sample.contacts = Sample.contacts
      /\ @nil log_record = []
      /\ request_json
           (mk_prepared_request "GET" (VStr "/crm/v3/objects/contacts")
              [ ("limit", VInt 100); ("after", VStr "100");
                ("sort", VStr "asc"); ("order_by", VStr "lastmodifieddate");
                ("properties", VStr "email,lastmodifieddate,hs_object_id") ]
              []) = []
      /\ request_method
           (mk_prepared_request "GET" (VStr "/crm/v3/objects/contacts")
              [ ("limit", VInt 100); ("after", VStr "100");
                ("sort", VStr "asc"); ("order_by", VStr "lastmodifieddate");
                ("properties", VStr "email,lastmodifieddate,hs_object_id") ]
              []) = rest_method Sample.contacts
      /\ request_path
           (mk_prepared_request "GET" (VStr "/crm/v3/objects/contacts")
              [ ("limit", VInt 100); ("after", VStr "100");
                ("sort", VStr "asc"); ("order_by", VStr "lastmodifieddate");
                ("properties", VStr "email,lastmodifieddate,hs_object_id") ]
              []) = path Sample.contacts
      /\ get_url_params Sample.contacts Sample.fresh (VStr "100")
         = Ok (request_params
                 (mk_prepared_request "GET" (VStr "/crm/v3/objects/contacts")
                    [ ("limit", VInt 100); ("after", VStr "100");
                      ("sort", VStr "asc");
                      ("order_by", VStr "lastmodifieddate");
                      ("properties",
                        VStr "email,lastmodifieddate,hs_object_id") ]
                    []))).
Proof.
  apply (@prepare_request_keeps_attributes Iso8601.runtime
           Sample.contacts Sample.contacts Sample.fresh (VStr "100")).
  reflexivity.
Defined.

Lemma search_request_target_witness :
  exists p,
    incremental_path Sample.contacts = Some p
    /\ path (search_target Sample.contacts
               (Sample.state_with "2023-06-01T00:00:00Z" "2023-06-01T00:00:00Z"))
       = p
    /\ rest_method (search_target Sample.contacts
                      (Sample.state_with "2023-06-01T00:00:00Z"
                         "2023-06-01T00:00:00Z")) = "POST"
    /\ get_url_params
         (search_target Sample.contacts
            (Sample.state_with "2023-06-01T00:00:00Z" "2023-06-01T00:00:00Z"))
         (Sample.state_with "2023-06-01T00:00:00Z" "2023-06-01T00:00:00Z")
         (VStr "100") = Ok []
    /\ forall req self' logs,
         @prepare_request Iso8601.runtime Sample.contacts
           (Sample.state_with "2023-06-01T00:00:00Z" "2023-06-01T00:00:00Z")
           (VStr "100") = Ok (req, self', logs) ->
         request_method req = "POST"
         /\ request_path req = p
         /\ request_params req = []
         /\ path self' = p
         /\ rest_method self' = "POST"
         /\ get_url_params self'
              (Sample.state_with "2023-06-01T00:00:00Z" "2023-06-01T00:00:00Z")
              (VStr "100") = Ok []
         /\ @prepare_request_payload Iso8601.runtime
              (search_target Sample.contacts
                 (Sample.state_with "2023-06-01T00:00:00Z"
                    "2023-06-01T00:00:00Z"))
              (Sample.state_with "2023-06-01T00:00:00Z" "2023-06-01T00:00:00Z")
              (VStr "100") = Ok (request_json req, self', logs).
Proof.
  apply (@search_request_target Iso8601.runtime Sample.contacts _ (VStr "100")).
  reflexivity.
Defined.

(** ** The filter value against the exact epoch milliseconds *)

(** C1, where the code departs from it: the date filter is 2004-03-01, the
    token is at the cap and the progress marker is
    2004-03-15T20:08:16.597Z.  The call rolls over as the claim says, with
    no [after] and the marker as the new date filter, which is
    1079381296597 milliseconds from the epoch; but the filter value in the
    body is 1079381296596: the double nearest to the seconds, times 1000,
    falls just below the whole number and [int] cuts it down. *)
Theorem rollover_filter_value_one_short :
  exists body self' logs m,
    @prepare_request_payload Iso8601.runtime Sample.contacts
      (Sample.state_with "2004-03-01T00:00:00Z" "2004-03-15T20:08:16.597Z")
      (VStr "9900") = Ok (body, self', logs)
    /\ @next_date_filter Iso8601.runtime
         (Sample.state_with "2004-03-01T00:00:00Z" "2004-03-15T20:08:16.597Z")
       = Ok m
    /\ dict_get "after" body = None
    /\ date_filter self' = Some m
    /\ @epoch_milliseconds Iso8601.runtime m = 1079381296597%Z
    /\ filter_value body = Some (VStr "1079381296596")
    /\ filter_value body
       <> Some (VStr (py_str_of_int (@epoch_milliseconds Iso8601.runtime m))).
Proof.
  do 4 eexists.
  split; [vm_compute; reflexivity|].
  split; [vm_compute; reflexivity|].
  split; [reflexivity|]. split; [reflexivity|].
  split; [vm_compute; reflexivity|].
  split; [vm_compute; reflexivity|].
  vm_compute. discriminate.
Qed.

(** The same one millisecond is lost on a marker of the year 2039. *)
Example rollover_filter_value_one_short_2039 :
  exists body self' logs m,
    @prepare_request_payload Iso8601.runtime Sample.contacts
      (Sample.state_with "2039-05-01T00:00:00Z" "2039-05-20T15:59:11.503Z")
      (VStr "9900") = Ok (body, self', logs)
    /\ date_filter self' = Some m
    /\ @epoch_milliseconds Iso8601.runtime m = 2189519951503%Z
    /\ filter_value body = Some (VStr "2189519951502").
Proof.
  do 4 eexists.
  split; [vm_compute; reflexivity|].
  split; [reflexivity|].
  split; vm_compute; reflexivity.
Qed.

(** C7, where the code departs from it: the first search request of a run
    whose starting replication value is 2004-03-15T20:08:16.597Z.  The
    body has the [GTE] filter on the replication cursor, the ascending
    sort, [limit] 100 and the resolved property names, as the claim says;
    but the value of the filter is 1079381296596 where the date filter is
    1079381296597 milliseconds from the epoch. *)
Theorem search_filter_value_one_short :
  exists body self' logs df,
    @prepare_request_payload Iso8601.runtime Sample.contacts
      (Sample.state_with "2004-03-15T20:08:16.597Z" "2004-03-15T20:08:16.597Z")
      VNone = Ok (body, self', logs)
    /\ date_filter self' = Some df
    /\ @epoch_milliseconds Iso8601.runtime df = 1079381296597%Z
    /\ dict_get "filterGroups" body
       = Some (VList [ VDict [ ("filters",
           VList [ VDict [ ("propertyName", VStr "lastmodifieddate");
                           ("operator", VStr "GTE");
                           ("value", VStr "1079381296596") ] ]) ] ])
    /\ filter_value body
       <> Some (VStr (py_str_of_int (@epoch_milliseconds Iso8601.runtime df)))
    /\ dict_get "sorts" body
       = Some (VList [ VDict [ ("propertyName", VStr "lastmodifieddate");
                               ("direction", VStr "ASCENDING") ] ])
    /\ dict_get "limit" body = Some (VInt 100)
    /\ dict_get "properties" body
       = Some (VList [ VStr "email"; VStr "lastmodifieddate";
                       VStr "hs_object_id" ]).
Proof.
  do 4 eexists.
  split; [vm_compute; reflexivity|].
  split; [reflexivity|].
  split; [vm_compute; reflexivity|].
  split; [reflexivity|].
  split; [vm_compute; discriminate|].
  repeat split; reflexivity.
Qed.
